(** * Separation explorer: KPI statistics, data model patches, error overlay
      and isotherm loading.

    Shallow embedding of [src/statistics.py] and [src/datamodel.py].
    Python floats are IEEE binary64 numbers, modelled by Rocq's primitive
    floats; [nan] is the missing value of pandas and numpy.  Python dicts are
    finite maps, Python exceptions are the error side of [result].  The
    arrays of the snapshot that are numpy views of columns of the stats
    table are tracked by the data model, and a patch of the snapshot
    writes through to the table. *)

From Stdlib Require Import Floats ZArith.
From stdpp Require Import gmap strings list pretty.

Local Open Scope float_scope.

(** ** Python exceptions *)

Inductive exn : Type :=
| TypeError
| KeyError
| IndexError
| ValueError
| AttributeError.

Inductive result (A : Type) : Type :=
| Ok (a : A)
| Raise (e : exn).
Arguments Ok {A} a.
Arguments Raise {A} e.

#[global] Instance result_ret : MRet result := fun A a => Ok a.

#[global] Instance result_bind : MBind result := fun A B k m =>
  match m with
  | Ok a => k a
  | Raise e => Raise e
  end.

#[global] Instance result_fmap : FMap result := fun A B f m =>
  match m with
  | Ok a => Ok (f a)
  | Raise e => Raise e
  end.

Definition of_option {A} (e : exn) (o : option A) : result A :=
  match o with
  | Some a => Ok a
  | None => Raise e
  end.

Definition is_ok {A} (r : result A) : bool :=
  match r with Ok _ => true | Raise _ => false end.

(** ** numpy on one-dimensional float arrays *)

Module Np.

Definition of_nat (n : nat) : float :=
  PrimFloat.of_uint63 (Uint63.of_Z (Z.of_nat n)).

Definition isnan (x : float) : bool := PrimFloat.is_nan x.

(** [sorted(xs)] on floats without missing values. *)
Fixpoint insert_sorted (x : float) (l : list float) : list float :=
  match l with
  | [] => [x]
  | y :: l' => if PrimFloat.leb x y then x :: l else y :: insert_sorted x l'
  end.

Definition sorted (l : list float) : list float :=
  foldr insert_sorted [] l.

(** [np.add.reduce] on a contiguous array, numpy's pairwise summation:
    fewer than 8 elements are added one by one; up to 128 elements are
    added in 8 interleaved accumulators, which are then combined in pairs,
    and the elements after the last full block of 8 are added one by one;
    a longer array is split in two near its middle, at a multiple of 8. *)
Fixpoint sum_blocks (fuel : nat) (r l : list float) : list float * list float :=
  match fuel with
  | O => (r, l)
  | S fuel' =>
    if (8 <=? length l)%nat
    then sum_blocks fuel' (zip_with PrimFloat.add r (take 8%nat l)) (drop 8%nat l)
    else (r, l)
  end.

Definition sum_unrolled (l : list float) : float :=
  let '(r, rest) := sum_blocks (length l) (take 8%nat l) (drop 8%nat l) in
  match r with
  | [r0; r1; r2; r3; r4; r5; r6; r7] =>
    fold_left PrimFloat.add rest
      (((r0 + r1) + (r2 + r3)) + ((r4 + r5) + (r6 + r7)))
  | _ => fold_left PrimFloat.add l 0
  end.

Fixpoint pairwise_sum (fuel : nat) (l : list float) : float :=
  let n := length l in
  if (n <? 8)%nat then fold_left PrimFloat.add l 0
  else if (n <=? 128)%nat then sum_unrolled l
  else
    match fuel with
    | O => sum_unrolled l
    | S fuel' =>
      let n2 := (n / 2 - (n / 2) mod 8)%nat in
      pairwise_sum fuel' (take n2 l) + pairwise_sum fuel' (drop n2 l)
    end.

(** [sum]: the reduction starts from the identity 0. *)
Definition sum (l : list float) : float := 0 + pairwise_sum (length l) l.

Definition mean (l : list float) : float := sum l / of_nat (length l).

(** [np.median]: [nan] on an empty array or when a [nan] is present, the
    middle element of the sorted array for an odd length, the mean of the
    two middle elements for an even length. *)
Definition median (l : list float) : float :=
  if existsb isnan l then nan
  else
    let s := sorted l in
    let n := length s in
    match n with
    | O => nan
    | _ =>
      if Nat.even n
      then (nth (n / 2 - 1)%nat s nan + nth (n / 2)%nat s nan) / 2
      else nth (n / 2)%nat s nan
    end.

(** [np.std] with its default [ddof = 0]: the population standard
    deviation, square root of the mean squared deviation from the mean. *)
Definition std (l : list float) : float :=
  let m := mean l in
  let d := map (fun x => (x - m) * (x - m)) l in
  PrimFloat.sqrt (sum d / of_nat (length l)).

(** Linear interpolation between neighbours, as numpy's [_lerp]. *)
Definition lerp (a b t : float) : float :=
  if PrimFloat.leb 0.5 t then b - (b - a) * (1 - t) else a + (b - a) * t.

(** [np.nanpercentile(s, q, interpolation='linear')] for a sorted array
    without [nan] and [q = 25 * k] percent: the virtual index
    [(n - 1) * k / 4] is split into its integer part and a fraction that
    is a multiple of a quarter (exact in binary64). *)
Definition percentile_quarters (s : list float) (k : nat) : float :=
  let n := length s in
  match n with
  | O => nan
  | _ =>
    let v := ((n - 1) * k)%nat in
    let lo := (v / 4)%nat in
    let hi := Nat.min (lo + 1) (n - 1) in
    let gamma := of_nat (v mod 4)%nat * 0.25 in
    lerp (nth lo s nan) (nth hi s nan) gamma
  end.

(** [np.maximum]: the first argument when it is at least the second or
    is [nan], the second otherwise (so a [nan] on either side wins). *)
Definition maximum (x y : float) : float :=
  if PrimFloat.leb y x || isnan x then x else y.

(** Element-wise binary operation with numpy's broadcasting for
    one-dimensional arrays. *)
Definition binop (f : float → float → float) (a b : list float)
  : result (list float) :=
  if Nat.eqb (length a) (length b) then Ok (zip_with f a b)
  else match a, b with
       | [x], _ => Ok (map (f x) b)
       | _, [y] => Ok (map (fun x => f x y) a)
       | _, _ => Raise ValueError
       end.

End Np.

(** ** [statistics.py] *)

Record Stat : Type := mkStat { size : nat; med : float; err : float }.

(** [series.dropna()] *)
Definition dropna (series : list float) : list float :=
  List.filter (fun x => negb (Np.isnan x)) series.

(** The quartiles [Q3, Q1] and [IQR] of line 29-31. *)
Definition quartiles (no_nan : list float) : float * float :=
  let s := Np.sorted no_nan in
  (Np.percentile_quarters s 3, Np.percentile_quarters s 1).

(** The mask of line 32:
    [(Q1 - 1.5 * IQR < no_nan) | (no_nan > Q3 + 1.5 * IQR)]. *)
Definition keep_mask (Q1 Q3 : float) (x : float) : bool :=
  let IQR := Q3 - Q1 in
  PrimFloat.ltb (Q1 - 1.5 * IQR) x || PrimFloat.ltb (Q3 + 1.5 * IQR) x.

Definition o_rem (no_nan : list float) : list float :=
  let '(Q3, Q1) := quartiles no_nan in
  List.filter (keep_mask Q1 Q3) no_nan.

Definition stats (series : list float) : Stat :=
  let no_nan := dropna series in
  let size := length no_nan in
  match no_nan with
  | [] => mkStat size nan 0
  | [v] => mkStat size v 0
  | _ =>
    if Nat.leb size 4
    then mkStat size (Np.median no_nan) (Np.std no_nan)
    else mkStat size (Np.median (o_rem no_nan)) (Np.std (o_rem no_nan))
  end.

(** ** The raw dataset and the per-material stats table *)

(** One measurement row of [DATASET]: the columns [type], [t], [ads], [mat]
    and the numeric columns (Henry coefficient and the loading at each
    pressure bucket), aligned with [d_cols]. *)
Record RawRow : Type := mkRow {
  r_type : string;
  r_t : float;
  r_ads : string;
  r_mat : string;
  r_vals : list float
}.

Record RawData : Type := mkRaw {
  d_cols : list string;
  d_rows : list RawRow
}.

(** A pandas frame indexed by material with two-level columns.  The numeric
    columns [(name, "size" | "med" | "err")] hold one float per material;
    a column [(ads, "mL")] holds one loading sequence per material and a
    column [(ads, "iso")] one list of isotherm references per material. *)
Record DataFrame : Type := mkFrame {
  index : list string;
  columns : gmap (string * string) (list float);
  seq_columns : gmap (string * string) (list (list float));
  ref_columns : gmap (string * string) (list (list string))
}.

(** [series.between(lo, hi)]: inclusive on both ends. *)
Definition between (t lo hi : float) : bool :=
  PrimFloat.leb lo t && PrimFloat.leb t hi.

(** Truth value of [i_type]: [None] and the empty string are false. *)
Definition truthy (o : option string) : bool :=
  match o with
  | Some s => negb (String.eqb s "")
  | None => false
  end.

Definition filter_rows (data : RawData) (i_type : option string)
    (t_abs t_tol : float) : list RawRow :=
  if truthy i_type
  then List.filter (fun r =>
         bool_decide (Some (r_type r) = i_type)
         && between (r_t r) (t_abs - t_tol) (t_abs + t_tol)) (d_rows data)
  else List.filter (fun r =>
         between (r_t r) (t_abs - t_tol) (t_abs + t_tol)) (d_rows data).

(** [series.unique()]: the values in the order of their first appearance,
    each once. *)
Fixpoint unique (l : list string) : list string :=
  match l with
  | [] => []
  | x :: l' => x :: List.filter (fun y => negb (String.eqb y x)) (unique l')
  end.

(** [frame['mat'].unique()] *)
Definition unique_mats (rows : list RawRow) : list string :=
  unique (map r_mat rows).

Definition common_mats (g1_filt g2_filt : list RawRow) : list string :=
  List.filter (fun m => bool_decide (m ∈ unique_mats g2_filt))
              (unique_mats g1_filt).

(** [groupby('mat', sort=False)]: the groups in first-seen order. *)
Definition groupby_mat (rows : list RawRow) : list (string * list RawRow) :=
  map (fun m => (m, List.filter (fun r => String.eqb (r_mat r) m) rows))
      (unique_mats rows).

(** [calc_kpi]: [stats] of every numeric column of every group. *)
Definition calc_kpi (ncols : nat) (groups : list (string * list RawRow))
  : list (string * list Stat) :=
  map (fun g =>
         (g.1, map (fun j => stats (map (fun r => nth j (r_vals r) nan) g.2))
                   (seq 0 ncols)))
      groups.

(** The three sub-columns of one numeric column of one side of the merge. *)
Definition stat_columns (name : string) (j : nat) (rows : list (list Stat))
  : list ((string * string) * list float) :=
  let cell (f : Stat → float) :=
    map (fun r => from_option f nan (r !! j)) rows in
  [ ((name, "size"%string), cell (fun s => Np.of_nat (size s)));
    ((name, "med"%string), cell med);
    ((name, "err"%string), cell err) ].

(** [pd.merge(left, right, on='mat', suffixes=('_x', '_y'))]: inner join,
    in the order of the left keys. *)
Definition merge (cols : list string) (left right : list (string * list Stat))
  : DataFrame :=
  let joined :=
    omap (fun l => r ← list_find (fun r => r.1 = l.1) right;
                   Some (l.1, l.2, r.2.2)) left in
  let side (sfx : string) (proj : string * list Stat * list Stat → list Stat) :=
    mjoin (imap (fun j c => stat_columns (c +:+ sfx) j (map proj joined)) cols) in
  mkFrame (map (fun x => x.1.1) joined)
          (list_to_map (side "_x"%string (fun x => x.1.2)
                        ++ side "_y"%string (fun x => x.2)))
          ∅ ∅.

Definition select_data (data : RawData) (i_type : option string)
    (t_abs t_tol : float) (g1 g2 : string) : option DataFrame :=
  let dft := filter_rows data i_type t_abs t_tol in
  let g1_filt := List.filter (fun r => String.eqb (r_ads r) g1) dft in
  let g2_filt := List.filter (fun r => String.eqb (r_ads r) g2) dft in
  let common := common_mats g1_filt g2_filt in
  if Nat.eqb (length common) 0 then None
  else
    let isin (r : RawRow) := bool_decide (r_mat r ∈ common) in
    Some (merge (d_cols data)
            (calc_kpi (length (d_cols data))
                      (groupby_mat (List.filter isin g1_filt)))
            (calc_kpi (length (d_cols data))
                      (groupby_mat (List.filter isin g2_filt)))).

(** The materials for which both adsorbates have rows after the type and
    temperature filter: [common] of [select_data]. *)
Definition shared_mats (data : RawData) (i_type : option string)
    (t_abs t_tol : float) (g1 g2 : string) : list string :=
  let dft := filter_rows data i_type t_abs t_tol in
  common_mats (List.filter (fun r => String.eqb (r_ads r) g1) dft)
              (List.filter (fun r => String.eqb (r_ads r) g2) dft).

(** ** Float formatting: [format(x, '.1f')] *)

(** The nearest multiple of a tenth, ties to even, of [m * 2^e], in tenths. *)
Definition tenths (m : positive) (e : Z) : Z :=
  if (0 <=? e)%Z then (Zpos m * 10 * 2 ^ e)%Z
  else
    let d := (2 ^ (- e))%Z in
    let q := (Zpos m * 10 / d)%Z in
    let r := (Zpos m * 10 mod d)%Z in
    if (d <? 2 * r)%Z then (q + 1)%Z
    else if (2 * r =? d)%Z && Z.odd q then (q + 1)%Z
    else q.

Definition format_1f (x : float) : string :=
  match Prim2SF x with
  | S754_nan => "nan"
  | S754_infinity s => if s then "-inf" else "inf"
  | S754_zero s => if s then "-0.0" else "0.0"
  | S754_finite s m e =>
    let n := tenths m e in
    (if s then "-" else "") +:+ pretty (n / 10)%Z +:+ "." +:+ pretty (n mod 10)%Z
  end%string.

(** ** Bokeh column data sources *)

(** A column of a [ColumnDataSource]: labels, a numpy array of floats (of
    fixed length) or a Python list of floats. *)
Inductive column : Type :=
| ColStr (l : list string)
| ColArray (a : list float)
| ColList (l : list float).

(** [col[:] = values] *)
Definition slice_assign (col : column) (values : list float) : result column :=
  match col with
  | ColStr _ => Raise TypeError
  | ColList _ => Ok (ColList values)
  | ColArray a =>
    if Nat.eqb (length values) (length a) then Ok (ColArray values)
    else match values with
         | [v] => Ok (ColArray (map (fun _ => v) a))
         | _ => Raise ValueError
         end
  end.

(** The patch dictionaries of this program give every key one
    [(slice(None), values)] entry. *)
Definition patches : Type := list (string * list float).

Definition patch_one (data : gmap string column) (kv : string * list float)
  : result (gmap string column) :=
  col ← of_option KeyError (data !! kv.1);
  col' ← slice_assign col kv.2;
  Ok (<[kv.1 := col']> data).

Fixpoint patch_all (data : gmap string column) (ps : patches)
  : result (gmap string column) :=
  match ps with
  | [] => Ok data
  | kv :: ps' => data' ← patch_one data kv; patch_all data' ps'
  end.

(** [source.patch(ps)]: only existing columns can be patched. *)
Definition patch (data : gmap string column) (ps : patches)
  : result (gmap string column) :=
  if forallb (fun kv => bool_decide (is_Some (data !! kv.1))) ps
  then patch_all data ps
  else Raise ValueError.

(** [source.data[key][index]] for a float column. *)
Definition float_at (data : gmap string column) (key : string) (i : nat)
  : result float :=
  col ← of_option KeyError (data !! key);
  match col with
  | ColStr l => Raise TypeError
  | ColArray a => of_option IndexError (a !! i)
  | ColList a => of_option IndexError (a !! i)
  end.

(** [source.data['labels'][index]] *)
Definition label_at (data : gmap string column) (i : nat) : result string :=
  col ← of_option KeyError (data !! "labels"%string);
  match col with
  | ColStr l => of_option IndexError (l !! i)
  | _ => Raise TypeError
  end.

(** ** The data model *)

Record Iso : Type := mkIso {
  iso_label : string;
  iso_y : list float;
  iso_x : list float;
  iso_doi : string;
  iso_temp : string
}.

(** One streamed row of an isotherm source. *)
Record Curve : Type := mkCurve {
  c_labels : string;
  c_x : list float;
  c_y : list float;
  c_doi : string;
  c_temp : string;
  c_color : string
}.

(** An isotherm source together with the range ends of its plot. *)
Record IsoPlot : Type := mkIsoPlot {
  source : list Curve;
  x_range_end : float;
  y_range_end : float
}.

Record Params : Type := mkParams {
  g1 : string;
  g2 : string;
  t_abs : float;
  t_tol : float;
  iso_type : option string;
  lp : float;
  p1 : float;
  p2 : float
}.

Record DataModel : Type := mkModel {
  _df : RawData;
  _dfs : option DataFrame;
  par : Params;
  data : gmap string column;
  selected : list nat;
  errors : gmap string column;
  g1_iso_sel : IsoPlot;
  g2_iso_sel : IsoPlot;
  (** [gen_data] takes the Henry and uptake columns of the snapshot from
      the stats table with [.values], which does not copy: these arrays
      are views of table columns.  [view] is the uptake pressure whose
      columns the uptake arrays of the snapshot are views of; it is [None]
      when the snapshot was not taken from the current table. *)
  view : option float
}.

(** [self._dfs = d]: a new table; the arrays of the snapshot stay views of
    the table they were taken from. *)
Definition set_dfs (d : option DataFrame) (m : DataModel) : DataModel :=
  mkModel (_df m) d (par m) (data m) (selected m) (errors m)
          (g1_iso_sel m) (g2_iso_sel m) None.
Definition set_par (p : Params) (m : DataModel) : DataModel :=
  mkModel (_df m) (_dfs m) p (data m) (selected m) (errors m)
          (g1_iso_sel m) (g2_iso_sel m) (view m).
Definition set_data (d : gmap string column) (m : DataModel) : DataModel :=
  mkModel (_df m) (_dfs m) (par m) d (selected m) (errors m)
          (g1_iso_sel m) (g2_iso_sel m) (view m).
Definition set_selected (l : list nat) (m : DataModel) : DataModel :=
  mkModel (_df m) (_dfs m) (par m) (data m) l (errors m)
          (g1_iso_sel m) (g2_iso_sel m) (view m).
Definition set_errors (e : gmap string column) (m : DataModel) : DataModel :=
  mkModel (_df m) (_dfs m) (par m) (data m) (selected m) e
          (g1_iso_sel m) (g2_iso_sel m) (view m).
Definition set_g1_iso_sel (p : IsoPlot) (m : DataModel) : DataModel :=
  mkModel (_df m) (_dfs m) (par m) (data m) (selected m) (errors m)
          p (g2_iso_sel m) (view m).
Definition set_g2_iso_sel (p : IsoPlot) (m : DataModel) : DataModel :=
  mkModel (_df m) (_dfs m) (par m) (data m) (selected m) (errors m)
          (g1_iso_sel m) p (view m).
Definition set_view (v : option float) (m : DataModel) : DataModel :=
  mkModel (_df m) (_dfs m) (par m) (data m) (selected m) (errors m)
          (g1_iso_sel m) (g2_iso_sel m) v.
(** The table changes in place: it stays the table the snapshot views. *)
Definition mutate_dfs (f : DataFrame → DataFrame) (m : DataModel) : DataModel :=
  mkModel (_df m) (f <$> _dfs m) (par m) (data m) (selected m) (errors m)
          (g1_iso_sel m) (g2_iso_sel m) (view m).

Definition set_lp (v : float) (p : Params) : Params :=
  mkParams (g1 p) (g2 p) (t_abs p) (t_tol p) (iso_type p) v (p1 p) (p2 p).
Definition set_p1_p2 (v1 v2 : float) (p : Params) : Params :=
  mkParams (g1 p) (g2 p) (t_abs p) (t_tol p) (iso_type p) (lp p) v1 v2.

(** [self._dfs[(name, sub)].values]: subscripting [None] is a type error,
    a missing column a key error. *)
Definition values (dfs : option DataFrame) (name sub : string)
  : result (list float) :=
  df ← of_option TypeError dfs;
  of_option KeyError (columns df !! (name, sub)).

(** [self._dfs.loc[mat, (name, sub)]]: [None] has no attribute [loc]. *)
Definition row_of (df : DataFrame) (mat : string) : result nat :=
  fst <$> of_option KeyError (list_find (fun l => l = mat) (index df)).

Definition loc (dfs : option DataFrame) (mat name sub : string) : result float :=
  df ← of_option AttributeError dfs;
  col ← of_option KeyError (columns df !! (name, sub));
  i ← row_of df mat;
  of_option KeyError (col !! i).

(** ['{0:.1f}_x'.format(p)] and ['{0:.1f}_y'.format(p)] *)
Definition key_x (p : float) : string := format_1f p +:+ "_x".
Definition key_y (p : float) : string := format_1f p +:+ "_y".

(** The uptake columns shared by [gen_data] and [patch_data_l]. *)
Record Uptake : Type := mkUptake {
  L_nx : list float; L_x : list float;
  L_ny : list float; L_y : list float;
  L_n : list float
}.

Definition uptake_columns (dfs : option DataFrame) (lp : float) : result Uptake :=
  L_nx ← values dfs (key_x lp) "size";
  L_x ← values dfs (key_x lp) "med";
  L_ny ← values dfs (key_y lp) "size";
  L_y ← values dfs (key_y lp) "med";
  L_n ← Np.binop PrimFloat.add L_nx L_ny;
  Ok (mkUptake L_nx L_x L_ny L_y L_n).

(** The working capacity columns shared by [gen_data] and [patch_data_w]. *)
Record WorkCap : Type := mkWorkCap {
  W_nx : list float; W_x : list float;
  W_ny : list float; W_y : list float;
  W_n : list float
}.

Definition workcap_columns (dfs : option DataFrame) (p1 p2 : float)
  : result WorkCap :=
  a ← values dfs (key_x p1) "size";
  b ← values dfs (key_x p2) "size";
  W_nx ← Np.binop Np.maximum a b;
  a ← values dfs (key_x p2) "med";
  b ← values dfs (key_x p1) "med";
  W_x ← Np.binop PrimFloat.sub a b;
  a ← values dfs (key_y p1) "size";
  b ← values dfs (key_y p2) "size";
  W_ny ← Np.binop Np.maximum a b;
  a ← values dfs (key_y p2) "med";
  b ← values dfs (key_y p1) "med";
  W_y ← Np.binop PrimFloat.sub a b;
  W_n ← Np.binop PrimFloat.add W_nx W_ny;
  Ok (mkWorkCap W_nx W_x W_ny W_y W_n).

Definition gen_data (m : DataModel) : result (gmap string column) :=
  let dfs := _dfs m in
  K_nx ← values dfs "kH_x" "size";
  K_x ← values dfs "kH_x" "med";
  K_ny ← values dfs "kH_y" "size";
  K_y ← values dfs "kH_y" "med";
  K_n ← Np.binop PrimFloat.add K_nx K_ny;
  L ← uptake_columns dfs (lp (par m));
  W ← workcap_columns dfs (p1 (par m)) (p2 (par m));
  sel ← Np.binop PrimFloat.div K_y K_x;
  q ← Np.binop PrimFloat.div K_y (W_x W);
  psa_W ← Np.binop PrimFloat.mul q sel;
  labels ← index <$> of_option AttributeError dfs;
  Ok (list_to_map
        [ ("labels", ColStr labels);
          ("sel", ColArray sel); ("psa_W", ColArray psa_W);
          ("K_x", ColArray K_x); ("K_y", ColArray K_y);
          ("K_nx", ColArray K_nx); ("K_ny", ColArray K_ny);
          ("K_n", ColArray K_n);
          ("L_x", ColArray (L_x L)); ("L_y", ColArray (L_y L));
          ("L_nx", ColArray (L_nx L)); ("L_ny", ColArray (L_ny L));
          ("L_n", ColArray (L_n L));
          ("W_x", ColArray (W_x W)); ("W_y", ColArray (W_y W));
          ("W_nx", ColArray (W_nx W)); ("W_ny", ColArray (W_ny W));
          ("W_n", ColArray (W_n W)) ]%string).

Definition patch_data_l (m : DataModel) : result patches :=
  L ← uptake_columns (_dfs m) (lp (par m));
  Ok [ ("L_x", L_x L); ("L_y", L_y L);
       ("L_nx", L_nx L); ("L_ny", L_ny L);
       ("L_n", L_n L) ]%string.

(** [self.data.data['sel']] as an array. *)
Definition array_of (data : gmap string column) (key : string)
  : result (list float) :=
  col ← of_option KeyError (data !! key);
  match col with
  | ColArray a => Ok a
  | ColList a => Ok a
  | ColStr _ => Raise TypeError
  end.

Definition patch_data_w (m : DataModel) : result patches :=
  W ← workcap_columns (_dfs m) (p1 (par m)) (p2 (par m));
  q ← Np.binop PrimFloat.div (W_y W) (W_x W);
  sel ← array_of (data m) "sel";
  psa_W ← Np.binop PrimFloat.mul q sel;
  Ok [ ("psa_W", psa_W);
       ("W_x", W_x W); ("W_y", W_y W);
       ("W_nx", W_nx W); ("W_ny", W_ny W);
       ("W_n", W_n W) ]%string.

(** ** Error overlay *)

(** The values and error terms of one metric family for one selected row. *)
Record Fam : Type := mkFam { v_x : float; v_y : float; e_x : float; e_y : float }.

(** [if np.isnan(x) or np.isnan(y): ... = 0, 0 ... else: <read errors>] *)
Definition nan_guard (x y : float) (errs : result (float * float)) : result Fam :=
  if Np.isnan x || Np.isnan y then Ok (mkFam 0 0 0 0)
  else e ← errs; Ok (mkFam x y e.1 e.2).

Definition henry_errors (dfs : option DataFrame) (mat : string)
  : result (float * float) :=
  K_ex ← loc dfs mat "kH_x" "err";
  K_ey ← loc dfs mat "kH_y" "err";
  Ok (K_ex, K_ey).

Definition uptake_errors (dfs : option DataFrame) (mat : string) (lp : float)
  : result (float * float) :=
  L_ex ← loc dfs mat (key_x lp) "err";
  L_ey ← loc dfs mat (key_y lp) "err";
  Ok (L_ex, L_ey).

Definition workcap_errors (dfs : option DataFrame) (mat : string) (p1 p2 : float)
  : result (float * float) :=
  a ← loc dfs mat (key_x p1) "err";
  b ← loc dfs mat (key_x p2) "err";
  c ← loc dfs mat (key_y p1) "err";
  d ← loc dfs mat (key_y p2) "err";
  Ok (a + b, c + d).

(** What one iteration of the loop of [gen_error] computes. *)
Record ErrRow : Type := mkErrRow {
  row_mat : string;
  row_K : Fam;
  row_L : Fam;
  row_W : Fam
}.

Definition gen_error_row (m : DataModel) (index : nat) : result ErrRow :=
  mat ← label_at (data m) index;
  K_x ← float_at (data m) "K_x" index;
  K_y ← float_at (data m) "K_y" index;
  L_x ← float_at (data m) "L_x" index;
  L_y ← float_at (data m) "L_y" index;
  W_x ← float_at (data m) "W_x" index;
  W_y ← float_at (data m) "W_y" index;
  K ← nan_guard K_x K_y (henry_errors (_dfs m) mat);
  L ← nan_guard L_x L_y (uptake_errors (_dfs m) mat (lp (par m)));
  W ← nan_guard W_x W_y
        (workcap_errors (_dfs m) mat (p1 (par m)) (p2 (par m)));
  Ok (mkErrRow mat K L W).

(** The two entries each list is extended by per selected row. *)
Definition pts_x (f : Fam) : list float := [v_x f; v_x f].
Definition pts_y (f : Fam) : list float := [v_y f; v_y f].
Definition seg_x0 (f : Fam) : list float := [v_x f - e_x f; v_x f].
Definition seg_y0 (f : Fam) : list float := [v_y f; v_y f - e_y f].
Definition seg_x1 (f : Fam) : list float := [v_x f + e_x f; v_x f].
Definition seg_y1 (f : Fam) : list float := [v_y f; v_y f + e_y f].

Definition extend {A} (part : A → list float) (rows : list A) : column :=
  ColList (mjoin (map part rows)).

Definition error_dict (rows : list ErrRow) : gmap string column :=
  list_to_map
    [ ("labels", ColStr (mjoin (map (fun r => [row_mat r; row_mat r]) rows)));
      ("K_x", extend (pts_x ∘ row_K) rows); ("K_y", extend (pts_y ∘ row_K) rows);
      ("L_x", extend (pts_x ∘ row_L) rows); ("L_y", extend (pts_y ∘ row_L) rows);
      ("W_x", extend (pts_x ∘ row_W) rows); ("W_y", extend (pts_y ∘ row_W) rows);
      ("K_x0", extend (seg_x0 ∘ row_K) rows); ("K_y0", extend (seg_y0 ∘ row_K) rows);
      ("K_x1", extend (seg_x1 ∘ row_K) rows); ("K_y1", extend (seg_y1 ∘ row_K) rows);
      ("L_x0", extend (seg_x0 ∘ row_L) rows); ("L_y0", extend (seg_y0 ∘ row_L) rows);
      ("L_x1", extend (seg_x1 ∘ row_L) rows); ("L_y1", extend (seg_y1 ∘ row_L) rows);
      ("W_x0", extend (seg_x0 ∘ row_W) rows); ("W_y0", extend (seg_y0 ∘ row_W) rows);
      ("W_x1", extend (seg_x1 ∘ row_W) rows); ("W_y1", extend (seg_y1 ∘ row_W) rows)
    ]%string.

(** [gen_error(indices)]; without indices every list is empty. *)
Definition gen_error (m : DataModel) (indices : option (list nat))
  : result (gmap string column) :=
  match indices with
  | None => Ok (error_dict [])
  | Some indices => rows ← mapM (gen_error_row m) indices; Ok (error_dict rows)
  end.

Definition patch_error_l_row (m : DataModel) (index : nat) : result Fam :=
  L_x ← float_at (data m) "L_x" index;
  L_y ← float_at (data m) "L_y" index;
  nan_guard L_x L_y
    (mat ← label_at (data m) index;
     uptake_errors (_dfs m) mat (lp (par m))).

Definition family_patches (l : string) (rows : list Fam) : patches :=
  [ (l +:+ "_x", mjoin (map pts_x rows)); (l +:+ "_y", mjoin (map pts_y rows));
    (l +:+ "_x0", mjoin (map seg_x0 rows)); (l +:+ "_y0", mjoin (map seg_y0 rows));
    (l +:+ "_x1", mjoin (map seg_x1 rows)); (l +:+ "_y1", mjoin (map seg_y1 rows))
  ]%string.

Definition patch_error_l (m : DataModel) (indices : option (list nat))
  : result patches :=
  match indices with
  | None => Ok (family_patches "L" [])
  | Some indices =>
    rows ← mapM (patch_error_l_row m) indices; Ok (family_patches "L" rows)
  end.

Definition patch_error_wc_row (m : DataModel) (index : nat) : result Fam :=
  W_x ← float_at (data m) "W_x" index;
  W_y ← float_at (data m) "W_y" index;
  nan_guard W_x W_y
    (mat ← label_at (data m) index;
     workcap_errors (_dfs m) mat (p1 (par m)) (p2 (par m))).

Definition patch_error_wc (m : DataModel) (indices : option (list nat))
  : result patches :=
  match indices with
  | None => Ok (family_patches "W" [])
  | Some indices =>
    rows ← mapM (patch_error_wc_row m) indices; Ok (family_patches "W" rows)
  end.

(** ** Key families of the snapshot: the keys of the two patches *)

Definition uptake_keys : list string := ["L_x"; "L_y"; "L_nx"; "L_ny"; "L_n"].

Definition workcap_keys : list string := ["W_x"; "W_y"; "W_nx"; "W_ny"; "W_n"].

(** ** Callbacks of the owner thread

    A callback returns the model it leaves behind together with how it
    ended: an exception keeps the assignments made before it.  A patch of
    the snapshot assigns its arrays in place, so that the table columns
    they are views of change with them. *)

Definition calculate (m : DataModel) : DataModel * result () :=
  let m1 := set_dfs (select_data (_df m) (iso_type (par m))
                       (t_abs (par m)) (t_tol (par m))
                       (g1 (par m)) (g2 (par m))) m in
  match gen_data m1 with
  | Ok d => (set_view (Some (lp (par m1))) (set_data d m1), Ok ())
  | Raise e => (m1, Raise e)
  end.

(** The table column an array of the snapshot is a view of, for a snapshot
    taken at the uptake pressure [lp0]: lines 197-206 of [gen_data].  The
    sums, the working capacity columns, the selectivity and [psa_W] are
    fresh arrays. *)
Definition view_of (lp0 : float) (key : string) : option (string * string) :=
  if String.eqb key "K_nx" then Some ("kH_x", "size")
  else if String.eqb key "K_x" then Some ("kH_x", "med")
  else if String.eqb key "K_ny" then Some ("kH_y", "size")
  else if String.eqb key "K_y" then Some ("kH_y", "med")
  else if String.eqb key "L_nx" then Some (key_x lp0, "size")
  else if String.eqb key "L_x" then Some (key_x lp0, "med")
  else if String.eqb key "L_ny" then Some (key_y lp0, "size")
  else if String.eqb key "L_y" then Some (key_y lp0, "med")
  else None.

Definition set_column (key : string * string) (a : list float) (df : DataFrame)
  : DataFrame :=
  mkFrame (index df) (<[key := a]> (columns df)) (seq_columns df)
          (ref_columns df).

(** What the table holds once the array under [key] of the snapshot [d]
    has been assigned in place: a viewed column holds the same values. *)
Definition write_through (view : option float) (d : gmap string column)
    (df : DataFrame) (key : string) : DataFrame :=
  match view ≫= (fun lp0 => view_of lp0 key), d !! key with
  | Some col, Some (ColArray a) =>
    if bool_decide (is_Some (columns df !! col)) then set_column col a df
    else df
  | _, _ => df
  end.

(** The model after [self.data.patch(ps)] has assigned the arrays under
    [keys] in place ([column[slice(None)] = values]). *)
Definition written (keys : list string) (m : DataModel) : DataModel :=
  mutate_dfs (fun df => foldl (write_through (view m) (data m)) df keys) m.
Arguments written : simpl never.

Definition uptake_callback (m : DataModel) (new : float) : DataModel * result () :=
  let m1 := set_par (set_lp new (par m)) m in
  match ps ← patch_data_l m1; patch (data m1) ps with
  | Raise e => (m1, Raise e)
  | Ok d =>
    let m2 := written uptake_keys (set_data d m1) in
    match selected m2 with
    | [] => (m2, Ok ())
    | _ =>
      match ps ← patch_error_l m2 (Some (selected m2)); patch (errors m2) ps with
      | Raise e => (m2, Raise e)
      | Ok e => (set_errors e m2, Ok ())
      end
    end
  end.

Definition wc_callback (m : DataModel) (new : float * float)
  : DataModel * result () :=
  let m1 := set_par (set_p1_p2 new.1 new.2 (par m)) m in
  match ps ← patch_data_w m1; patch (data m1) ps with
  | Raise e => (m1, Raise e)
  | Ok d =>
    let m2 := written ("psa_W"%string :: workcap_keys) (set_data d m1) in
    match selected m2 with
    | [] => (m2, Ok ())
    | _ =>
      match ps ← patch_error_wc m2 (Some (selected m2)); patch (errors m2) ps with
      | Raise e => (m2, Raise e)
      | Ok e => (set_errors e m2, Ok ())
      end
    end
  end.

(** ** Isotherm display *)

(** [gen_iso_dict()] together with the reset of the plot's range ends. *)
Definition gen_iso_dict : list Curve := [].

Definition reset_plot : IsoPlot := mkIsoPlot gen_iso_dict 1 1.

(** [self._dfs.loc[mat, (ads, 'mL')]] and [self._dfs.loc[mat, (ads, 'iso')]] *)
Definition loc_mL (dfs : option DataFrame) (mat ads : string)
  : result (list float) :=
  df ← of_option AttributeError dfs;
  col ← of_option KeyError (seq_columns df !! (ads, "mL"%string));
  i ← row_of df mat;
  of_option KeyError (col !! i).

Definition loc_iso (dfs : option DataFrame) (mat ads : string)
  : result (list string) :=
  df ← of_option AttributeError dfs;
  col ← of_option KeyError (ref_columns df !! (ads, "iso"%string));
  i ← row_of df mat;
  of_option KeyError (col !! i).

(** The two coroutines a loader hands to the document. *)
Inductive target : Type := Update_g1 | Update_g2.

(** [partial(self.iso_update_g1, iso=..., color=...)], queued with
    [doc.add_next_tick_callback]. *)
Record Callback : Type := mkCallback {
  cb_target : target;
  cb_iso : Iso;
  cb_color : option string
}.

(** [next(self.c_cyc)].  The data model never defines an attribute [c_cyc]:
    the palette [cycle(gen_palette(20))] is an attribute of the dashboard
    ([dash_sep.py], line 155), which the model knows as [self.s_dash]. *)
Definition next_c_cyc : result string := Raise AttributeError.

(** [if not color: color = next(self.c_cyc)] *)
Definition pick_color (color : option string) : result string :=
  if truthy color then of_option TypeError color else next_c_cyc.

(** [source.stream({...})]: one more row. *)
Definition stream (iso : Iso) (color : string) (p : IsoPlot) : IsoPlot :=
  mkIsoPlot
    (source p ++ [mkCurve (iso_label iso) (iso_x iso) (iso_y iso)
                          (iso_doi iso) (iso_temp iso) color])
    (x_range_end p) (y_range_end p).

(** The body shared by [iso_update_g1] and [iso_update_g2]. *)
Definition iso_update (p : IsoPlot) (iso : Iso) (color : option string)
  : IsoPlot * result () :=
  match pick_color color with
  | Raise e => (p, Raise e)
  | Ok c =>
    let p1 := stream iso c p in
    match last (iso_x iso) with
    | None => (p1, Raise IndexError)
    | Some x =>
      let p2 := if PrimFloat.ltb (x_range_end p1) x
                then mkIsoPlot (source p1) x (y_range_end p1) else p1 in
      match last (iso_y iso) with
      | None => (p2, Raise IndexError)
      | Some y =>
        (if PrimFloat.ltb (y_range_end p2) y
         then mkIsoPlot (source p2) (x_range_end p2) y else p2, Ok ())
      end
    end
  end.

Definition iso_update_g1 (m : DataModel) (iso : Iso) (color : option string)
  : DataModel * result () :=
  let r := iso_update (g1_iso_sel m) iso color in (set_g1_iso_sel r.1 m, r.2).

Definition iso_update_g2 (m : DataModel) (iso : Iso) (color : option string)
  : DataModel * result () :=
  let r := iso_update (g2_iso_sel m) iso color in (set_g2_iso_sel r.1 m, r.2).

Definition run_callback (m : DataModel) (cb : Callback) : DataModel * result () :=
  match cb_target cb with
  | Update_g1 => iso_update_g1 m (cb_iso cb) (cb_color cb)
  | Update_g2 => iso_update_g2 m (cb_iso cb) (cb_color cb)
  end.

Section Loader.

(** [helpers.load_isotherm]: the decoder of isotherm references, [None]
    when a reference cannot be parsed. *)
Variable load_isotherm : string → option Iso.

(** [pressure = [p * 0.5 for p in range(len(loading) + 1)]] *)
Definition pressure_steps (loading : list float) : list float :=
  map (fun p => Np.of_nat p * 0.5) (seq 0 (length loading + 1)).

(** One branch of [populate_isos]: the callbacks it queues, in order, and
    how the thread ended. *)
Definition populate_slot (m : DataModel) (mat ads : string) (t : target)
  : list Callback * result () :=
  match loc_mL (_dfs m) mat ads with
  | Raise e => ([], Raise e)
  | Ok loading =>
    let pressure := pressure_steps loading in
    let first :=
      mkCallback t (mkIso "median" loading pressure "" "") (Some "k"%string) in
    match loc_iso (_dfs m) mat ads with
    | Raise e => ([first], Raise e)
    | Ok refs =>
      (first :: omap (fun iso => (fun parsed => mkCallback t parsed None)
                                   <$> load_isotherm iso) refs,
       Ok ())
    end
  end.

Definition populate_isos (m : DataModel) (index : nat) (ads : string)
  : list Callback * result () :=
  match label_at (data m) index with
  | Raise e => ([], Raise e)
  | Ok mat =>
    if String.eqb ads "g1" then populate_slot m mat (g1 (par m)) Update_g1
    else if String.eqb ads "g2" then populate_slot m mat (g2 (par m)) Update_g2
    else ([], Ok ())
  end.

(** [selection_callback]: the model it leaves, the loader threads it
    starts (each as the callbacks it is going to queue) and how it ended. *)
Definition selection_callback (m : DataModel) (new : list nat)
  : DataModel * list (list Callback) * result () :=
  let reset (m : DataModel) :=
    set_g2_iso_sel reset_plot (set_g1_iso_sel reset_plot m) in
  match new with
  | [] =>
    match gen_error m None with
    | Raise e => (m, [], Raise e)
    | Ok e => (reset (set_errors e m), [], Ok ())
    end
  | _ =>
    match gen_error m (Some new) with
    | Raise e => (m, [], Raise e)
    | Ok e =>
      let m1 := reset (set_errors e m) in
      match new with
      | [index] =>
        (m1, [(populate_isos m1 index "g1").1; (populate_isos m1 index "g2").1],
         Ok ())
      | _ => (m1, [], Ok ())
      end
    end
  end.

(** *** The session: owner thread, loader threads and the callback queue *)

Record Session : Type := mkSession {
  model : DataModel;
  queue : list Callback;
  threads : list (list Callback)
}.

Inductive event : Type :=
| Select (new : list nat)   (* the selection changes: owner thread *)
| Emit (i : nat)            (* loader thread [i] queues its next callback *)
| Tick.                     (* the owner thread runs the next callback *)

Definition exec (s : Session) (ev : event) : Session :=
  match ev with
  | Select new =>
    let r := selection_callback (set_selected new (model s)) new in
    mkSession r.1.1 (queue s) (threads s ++ r.1.2)
  | Emit i =>
    match threads s !! i with
    | Some (cb :: rest) =>
      mkSession (model s) (queue s ++ [cb]) (<[i := rest]> (threads s))
    | _ => s
    end
  | Tick =>
    match queue s with
    | cb :: q => mkSession (run_callback (model s) cb).1 q (threads s)
    | [] => s
    end
  end.

Definition run (s : Session) (evs : list event) : Session :=
  foldl exec s evs.

(** The curves the loaders of the current singleton selection produce
    for a target. *)
Definition curves_of (m : DataModel) (index : nat) (ads : string)
  : list (list float * list float) :=
  map (fun cb => (iso_x (cb_iso cb), iso_y (cb_iso cb)))
      (populate_isos m index ads).1.

End Loader.

(** The cancellation rule as a property of a session: every curve shown
    for the first gas is a curve of the loader of the current singleton
    selection. *)
Definition only_current_curves (load : string → option Iso) (s : Session)
  : Prop :=
  ∀ c, c ∈ source (g1_iso_sel (model s)) →
    ∃ index, selected (model s) = [index]
             ∧ (c_x c, c_y c) ∈ curves_of load (model s) index "g1".

(** ** Callbacks of the filter criteria *)

Definition set_g1 (v : string) (p : Params) : Params :=
  mkParams v (g2 p) (t_abs p) (t_tol p) (iso_type p) (lp p) (p1 p) (p2 p).
Definition set_g2 (v : string) (p : Params) : Params :=
  mkParams (g1 p) v (t_abs p) (t_tol p) (iso_type p) (lp p) (p1 p) (p2 p).
Definition set_t_abs (v : float) (p : Params) : Params :=
  mkParams (g1 p) (g2 p) v (t_tol p) (iso_type p) (lp p) (p1 p) (p2 p).
Definition set_t_tol (v : float) (p : Params) : Params :=
  mkParams (g1 p) (g2 p) (t_abs p) v (iso_type p) (lp p) (p1 p) (p2 p).
Definition set_iso_type (v : option string) (p : Params) : Params :=
  mkParams (g1 p) (g2 p) (t_abs p) (t_tol p) v (lp p) (p1 p) (p2 p).

Section Criteria.

Variable load_isotherm : string → option Iso.

(** [if self.data.selected.indices: self.data.selected.update(indices=[])]:
    emptying a non-empty selection runs [selection_callback], which
    [__init__] registers for changes of the selected indices. *)
Definition reset_selection (m : DataModel) : DataModel * result () :=
  match selected m with
  | [] => (m, Ok ())
  | _ =>
    let r := selection_callback load_isotherm (set_selected [] m) [] in
    (r.1.1, r.2)
  end.

(** [self.g1_iso_sel.data = self.gen_iso_dict()]: the curves go, the range
    ends of the plot stay. *)
Definition clear_curves (p : IsoPlot) : IsoPlot :=
  mkIsoPlot gen_iso_dict (x_range_end p) (y_range_end p).

Definition reset_bottom (m : DataModel) : DataModel :=
  set_g2_iso_sel (clear_curves (g2_iso_sel m))
    (set_g1_iso_sel (clear_curves (g1_iso_sel m)) m).

(** [new_t_callback]; [new_ads_callback] does the same to the model and
    also rewrites axis labels and plot titles of the dashboard. *)
Definition new_t_callback (m : DataModel) : DataModel * result () :=
  let r := calculate m in
  match r.2 with
  | Raise e => (r.1, Raise e)
  | Ok _ =>
    let r' := reset_selection r.1 in
    match r'.2 with
    | Raise e => (r'.1, Raise e)
    | Ok _ => (reset_bottom r'.1, Ok ())
    end
  end.

Definition new_ads_callback (m : DataModel) : DataModel * result () :=
  new_t_callback m.

(** [new_dtype_callback]: as [new_t_callback], then
    [print(f'finished, now {len(self._dfs)}')]. *)
Definition new_dtype_callback (m : DataModel) : DataModel * result () :=
  let r := new_t_callback m in
  match r.2 with
  | Raise e => r
  | Ok _ =>
    match _dfs r.1 with
    | None => (r.1, Raise TypeError)
    | Some _ => r
    end
  end.

(** The callbacks [callback_link_sep] registers on the widgets. *)
Definition dtype_callback (m : DataModel) (new : Z) : DataModel * result () :=
  let p := if (new =? 0)%Z then set_iso_type None (par m)
           else if (new =? 1)%Z then set_iso_type (Some "exp"%string) (par m)
           else if (new =? 2)%Z then set_iso_type (Some "sim"%string) (par m)
           else par m in
  new_dtype_callback (set_par p m).

Definition g1_sel_callback (m : DataModel) (new : string)
  : DataModel * result () :=
  new_ads_callback (set_par (set_g1 new (par m)) m).

Definition g2_sel_callback (m : DataModel) (new : string)
  : DataModel * result () :=
  new_ads_callback (set_par (set_g2 new (par m)) m).

Definition t_abs_callback (m : DataModel) (new : float)
  : DataModel * result () :=
  new_t_callback (set_par (set_t_abs new (par m)) m).

Definition t_tol_callback (m : DataModel) (new : float)
  : DataModel * result () :=
  new_t_callback (set_par (set_t_tol new (par m)) m).

End Criteria.

(** ** [find_nearest] *)

(** [np.argmin]: the position of the first minimum; a [nan] counts as the
    minimum, and an empty array has none. *)
Fixpoint argmin_from (best : nat) (least : float) (i : nat) (l : list float)
  : nat :=
  match l with
  | [] => best
  | x :: l' =>
    if Np.isnan least then best
    else if Np.isnan x || PrimFloat.ltb x least
         then argmin_from i x (S i) l'
         else argmin_from best least (S i) l'
  end.

Definition argmin (l : list float) : result nat :=
  match l with
  | [] => Raise ValueError
  | x :: l' => Ok (argmin_from 0 x 1 l')
  end.

(** [array[(np.abs(array - value)).argmin()]] *)
Definition find_nearest (array : list float) (value : float) : result float :=
  i ← argmin (map (fun x => PrimFloat.abs (x - value)) array);
  of_option IndexError (array !! i).

(** ** Shape of the stats table *)

(** Every numeric column has one entry per material. *)
Definition rectangular (df : DataFrame) : bool :=
  forallb (fun kv => Nat.eqb (length kv.2) (length (index df)))
          (map_to_list (columns df)).

(** ** Key families of the overlay *)

(** The overlay keys of one metric family. *)
Definition family_keys (l : string) : list string :=
  map (fun sfx => l +:+ sfx) ["_x"; "_y"; "_x0"; "_y0"; "_x1"; "_y1"]%string.

(** What row [j] of the selection contributed to the column [key] of an
    overlay: the entries [2 j] and [2 j + 1] of its list. *)
Definition entries (e : gmap string column) (key : string) (j : nat)
    (a b : float) : Prop :=
  ∃ l, e !! key = Some (ColList l)
       ∧ l !! (2 * j)%nat = Some a ∧ l !! (2 * j + 1)%nat = Some b.

(** The six columns of family [l] hold, for row [j] of the selection, the
    point [(x, y)] and the ends of its error bars, [ex] along the first
    axis and [ey] along the second (lines 351-372 of [gen_error]). *)
Definition family_entries (e : gmap string column) (l : string) (j : nat)
    (x y ex ey : float) : Prop :=
  entries e (l +:+ "_x") j x x
  ∧ entries e (l +:+ "_y") j y y
  ∧ entries e (l +:+ "_x0") j (x - ex) x
  ∧ entries e (l +:+ "_y0") j y (y - ey)
  ∧ entries e (l +:+ "_x1") j (x + ex) x
  ∧ entries e (l +:+ "_y1") j y (y + ey).

(** The six columns of family [l] hold zeros for row [j]. *)
Definition zero_entries (e : gmap string column) (l : string) (j : nat)
  : Prop :=
  entries e (l +:+ "_x") j 0 0
  ∧ entries e (l +:+ "_y") j 0 0
  ∧ entries e (l +:+ "_x0") j 0 0
  ∧ entries e (l +:+ "_y0") j 0 0
  ∧ entries e (l +:+ "_x1") j 0 0
  ∧ entries e (l +:+ "_y1") j 0 0.

(** The value of a computation that succeeded, [d] otherwise. *)
Definition get_ok {A} (d : A) (r : result A) : A :=
  match r with Ok a => a | Raise _ => d end.

(** ** A small dataset *)

Module Demo.

Definition row (ty : string) (t : float) (ads mat : string) (vals : list float)
  : RawRow := mkRow ty t ads mat vals.

(** Columns: Henry coefficient and the loading at 0.5, 1.0 and 5.0 bar. *)
Definition raw : RawData :=
  mkRaw ["kH"; "0.5"; "1.0"; "5.0"]%string
    [ row "exp" 303 "propane" "MOF-A" [2; 1; 2; 6];
      row "exp" 298 "propane" "MOF-A" [4; 3; 4; 8];
      row "sim" 303 "propane" "MOF-B" [1; nan; 1; 3];
      row "exp" 303 "propene" "MOF-B" [3; nan; 2; 5];
      row "exp" 303 "propene" "MOF-A" [8; 2; 3; 9];
      row "exp" 400 "propene" "MOF-C" [9; 9; 9; 9];
      row "exp" 303 "ethane" "MOF-D" [1; 1; 1; 1];
      row "exp" 303 "ethene" "MOF-E" [1; 1; 1; 1] ]%string.

Definition params : Params :=
  mkParams "propane" "propene" 303 10 None 0.5 0.5 5.

(** The model before its first [calculate]. *)
Definition blank : DataModel :=
  mkModel raw None params ∅ [] ∅ reset_plot reset_plot None.

(** The model after a successful [calculate]. *)
Definition model0 : DataModel := (calculate blank).1.

(** The stats table of [model0] with the loading sequences and the isotherm
    references the loaders read. *)
Definition with_isotherms (df : DataFrame) : DataFrame :=
  mkFrame (index df) (columns df)
    (list_to_map [ (("propane", "mL"), [[1; 3; 7]; [1; 3]]);
                   (("propene", "mL"), [[2; 3; 9]; [2; 5]]) ]%string)
    (list_to_map [ (("propane", "iso"), [["a1"; "broken"]; ["b1"]]);
                   (("propene", "iso"), [[]; []]) ]%string).

(** The same dataset queried for two gases that share no material. *)
Definition disjoint : DataModel :=
  mkModel raw None (mkParams "ethane" "ethene" 303 10 None 0.5 0.5 5)
          ∅ [] ∅ reset_plot reset_plot None.

Definition frame0 : DataFrame := default (mkFrame [] ∅ ∅ ∅) (_dfs model0).

Definition model1 : DataModel :=
  set_dfs (with_isotherms <$> _dfs model0) model0.

Definition load_isotherm (ref : string) : option Iso :=
  if String.eqb ref "a1" then Some (mkIso "a1" [0.5; 2.5] [1; 4] "doi-a1" "303")
  else if String.eqb ref "b1" then Some (mkIso "b1" [0.25; 2] [1; 6] "doi-b1" "303")
  else None.

(** Material 0 is selected and its first loader queues its median curve;
    material 1 is selected before the owner thread runs that callback. *)
Definition stale_run : list event :=
  [Select [0%nat]; Emit 0; Select [1%nat]; Tick].

End Demo.

(** * Properties *)

(** ** [stats] *)

(** Two floats that [PrimFloat.eqb] tells apart are different. *)
Lemma eqb_false_neq (x y : float) :
  PrimFloat.eqb x y = false → PrimFloat.eqb y y = true → x ≠ y.
Proof. intros Hxy Hyy ->. rewrite Hyy in Hxy. discriminate. Qed.

Ltac float_neq := apply eqb_false_neq; vm_compute; reflexivity.

Lemma dropna_not_nan (series : list float) (x : float) :
  x ∈ dropna series ↔ x ∈ series ∧ Np.isnan x = false.
Proof.
  unfold dropna. rewrite !list_elem_of_In, filter_In, negb_true_iff. tauto.
Qed.

(** C8: the small cases of [stats].  The count is the number of
    non-missing samples in every case; no sample gives a missing median
    and error 0, one sample gives that sample and error 0, two to four
    samples give the median and the population standard deviation of all
    of them, with nothing rejected. *)
Theorem stats_small_cases (series : list float) :
  size (stats series) = length (dropna series)
  ∧ (length (dropna series) = 0%nat →
       med (stats series) = nan ∧ err (stats series) = 0)
  ∧ (∀ v, dropna series = [v] →
       med (stats series) = v ∧ err (stats series) = 0)
  ∧ ((2 ≤ length (dropna series) ≤ 4)%nat →
       med (stats series) = Np.median (dropna series)
       ∧ err (stats series) = Np.std (dropna series)).
Proof.
  unfold stats.
  destruct (dropna series) as [|a [|b l]] eqn:E; simpl;
    [| |destruct (Nat.leb_spec (length l) 2) as [Hle|Hgt]; simpl];
    (split; [reflexivity|split; [|split]]);
    try (intros; lia); try (intros v [=]; subst); try done.
Qed.

Lemma stats_small_cases_witness :
  size (stats [1; nan; 2; 3; 1000]) = 4%nat
  ∧ med (stats [1; nan; 2; 3; 1000]) = 2.5
  ∧ err (stats [1; nan; 2; 3; 1000]) = Np.std [1; 2; 3; 1000]
  ∧ med (stats [nan; 7]) = 7 ∧ err (stats [nan; 7]) = 0
  ∧ med (stats [nan; nan]) = nan ∧ err (stats [nan; nan]) = 0.
Proof.
  pose proof (stats_small_cases [1; nan; 2; 3; 1000]) as (Hn & _ & _ & H4).
  pose proof (stats_small_cases [nan; 7]) as (_ & _ & H1 & _).
  pose proof (stats_small_cases [nan; nan]) as (_ & H0 & _ & _).
  split; [exact Hn|].
  destruct H4 as [Hm He]; [vm_compute; lia|].
  destruct (H1 7) as [Hm1 He1]; [reflexivity|].
  destruct H0 as [Hm0 He0]; [reflexivity|].
  split; [rewrite Hm; vm_compute; reflexivity|].
  split; [rewrite He; vm_compute; reflexivity|].
  repeat split; assumption.
Defined.

(** With more than four samples the median and the error are those of the
    samples kept by the mask of line 32. *)
Lemma stats_large (series : list float) :
  (4 < length (dropna series))%nat →
  stats series = mkStat (length (dropna series))
                        (Np.median (o_rem (dropna series)))
                        (Np.std (o_rem (dropna series))).
Proof.
  unfold stats. destruct (dropna series) as [|a [|b l]]; simpl; try lia.
  intros H. destruct (Nat.leb_spec (length l) 2); [lia|done].
Qed.

(** C1 (the code departs from it): on [1, 2, 3, 4, 100] the quartiles are
    2 and 4 and the bounds -1 and 7, but the mask keeps every sample above
    the lower bound, so 100 survives: the median is 3 and the error is the
    standard deviation of all five samples, not those of [1, 2, 3, 4]. *)
Theorem stats_keeps_upper_outlier :
  let samples := [1; 2; 3; 4; 100] in
  let '(Q3, Q1) := quartiles samples in
  Q1 = 2 ∧ Q3 = 4
  ∧ Q1 - 1.5 * (Q3 - Q1) = -1 ∧ Q3 + 1.5 * (Q3 - Q1) = 7
  ∧ keep_mask Q1 Q3 100 = true
  ∧ o_rem samples = samples
  ∧ stats samples = mkStat 5 3 (Np.std samples)
  ∧ med (stats samples) ≠ Np.median [1; 2; 3; 4]
  ∧ err (stats samples) ≠ Np.std [1; 2; 3; 4].
Proof.
  vm_compute. repeat split; float_neq.
Qed.

(** ** The error monad *)

Lemma bind_Ok {A B} (m : result A) (k : A → result B) (b : B) :
  m ≫= k = Ok b ↔ ∃ a, m = Ok a ∧ k a = Ok b.
Proof.
  destruct m as [a|e]; simpl; split.
  - intros H. by exists a.
  - by intros (a' & [= ->] & H).
  - intros [=].
  - by intros (a' & [=] & _).
Qed.

Lemma fmap_Ok {A B} (f : A → B) (m : result A) (b : B) :
  f <$> m = Ok b ↔ ∃ a, m = Ok a ∧ b = f a.
Proof.
  destruct m as [a|e]; simpl; split.
  - intros [= <-]. by exists a.
  - by intros (a' & [= ->] & ->).
  - intros [=].
  - by intros (a' & [=] & _).
Qed.

Lemma of_option_Ok {A} (e : exn) (o : option A) (a : A) :
  of_option e o = Ok a ↔ o = Some a.
Proof. destruct o; simpl; split; congruence. Qed.

(** Take a successful chain of binds apart. *)
Ltac inv_ok H :=
  repeat match type of H with
  | _ ≫= _ = Ok _ =>
    let a := fresh "a" in let Ha := fresh "Ha" in
    apply bind_Ok in H as (a & Ha & H)
  end.

(** ** Shapes *)

Lemma rectangular_length (df : DataFrame) (k : string * string) (c : list float) :
  rectangular df = true → columns df !! k = Some c →
  length c = length (index df).
Proof.
  unfold rectangular. rewrite forallb_forall. intros Hall Hk.
  apply Nat.eqb_eq, (Hall (k, c)), list_elem_of_In, elem_of_map_to_list, Hk.
Qed.

Lemma values_Ok (dfs : option DataFrame) (name sub : string) (c : list float) :
  values dfs name sub = Ok c ↔
  ∃ df, dfs = Some df ∧ columns df !! (name, sub) = Some c.
Proof.
  unfold values. rewrite bind_Ok. setoid_rewrite of_option_Ok.
  naive_solver.
Qed.

Lemma values_length (df : DataFrame) (name sub : string) (c : list float) :
  rectangular df = true → values (Some df) name sub = Ok c →
  length c = length (index df).
Proof.
  intros Hr (df' & [= <-] & Hc)%values_Ok. by eapply rectangular_length.
Qed.

Lemma binop_Ok_length (f : float → float → float) (a b c : list float) :
  length a = length b → Np.binop f a b = Ok c →
  c = zip_with f a b ∧ length c = length a.
Proof.
  intros Hl. unfold Np.binop. rewrite Hl, Nat.eqb_refl. intros [= <-].
  split; [done|]. rewrite length_zip_with. lia.
Qed.

Lemma binop_same_length (f : float → float → float) (a b : list float) :
  length a = length b → Np.binop f a b = Ok (zip_with f a b).
Proof. intros Hl. unfold Np.binop. by rewrite Hl, Nat.eqb_refl. Qed.

(** ** Patching a source *)

Lemma patch_one_array (d : gmap string column) (k : string) (v a : list float) :
  d !! k = Some (ColArray a) → length v = length a →
  patch_one d (k, v) = Ok (<[k := ColArray v]> d).
Proof.
  intros Hk Hl. unfold patch_one. simpl. rewrite Hk. simpl.
  by rewrite Hl, Nat.eqb_refl.
Qed.

Lemma patch_one_list (d : gmap string column) (k : string) (v a : list float) :
  d !! k = Some (ColList a) →
  patch_one d (k, v) = Ok (<[k := ColList v]> d).
Proof. intros Hk. unfold patch_one. simpl. by rewrite Hk. Qed.

(** A patch leaves the columns it does not name as they are. *)
Lemma patch_all_frame (ps : patches) (d d' : gmap string column) (k : string) :
  patch_all d ps = Ok d' → k ∉ ps.*1 → d' !! k = d !! k.
Proof.
  revert d. induction ps as [|[k0 v] ps IH]; intros d; simpl.
  - by intros [= ->].
  - intros H Hk. apply bind_Ok in H as (d1 & H1 & H).
    rewrite (IH _ H) by set_solver.
    unfold patch_one in H1. inv_ok H1. simplify_eq. simpl.
    apply lookup_insert_ne. set_solver.
Qed.

Lemma patch_frame (ps : patches) (d d' : gmap string column) (k : string) :
  patch d ps = Ok d' → k ∉ ps.*1 → d' !! k = d !! k.
Proof.
  unfold patch. destruct (forallb _ ps); [|done]. apply patch_all_frame.
Qed.

(** A patch with distinct keys, each naming a column its values can be
    assigned to, goes through and assigns every one of them. *)
Lemma patch_all_distinct (ps : patches) (d : gmap string column) :
  NoDup ps.*1 →
  (∀ k v, (k, v) ∈ ps → ∃ c, d !! k = Some c ∧ is_ok (slice_assign c v) = true) →
  ∃ d', patch_all d ps = Ok d'
        ∧ ∀ k v, (k, v) ∈ ps →
            ∃ c, d !! k = Some c ∧ Some <$> slice_assign c v = Ok (d' !! k).
Proof.
  revert d. induction ps as [|[k0 v0] ps IH]; intros d Hnd Hps; simpl.
  - exists d. split; [done|]. intros k v Hin. by apply elem_of_nil in Hin.
  - apply NoDup_cons in Hnd as [Hk0 Hnd]. simpl in Hk0.
    destruct (Hps k0 v0) as (c0 & Hc0 & Hok0); [left|].
    destruct (slice_assign c0 v0) as [c0'|] eqn:Hs0; [|done].
    assert (H1 : patch_one d (k0, v0) = Ok (<[k0 := c0']> d)).
    { unfold patch_one. simpl. rewrite Hc0. simpl. by rewrite Hs0. }
    rewrite H1. simpl.
    destruct (IH (<[k0 := c0']> d) Hnd) as (d' & Hd' & Hall).
    { intros k v Hin. assert (k ≠ k0).
      { intros ->. apply Hk0, list_elem_of_fmap. by exists (k0, v). }
      rewrite lookup_insert_ne by done. apply Hps. by right. }
    exists d'. split; [done|]. intros k v [[= -> ->]|Hin]%elem_of_cons.
    + exists c0. split; [done|]. rewrite Hs0. simpl.
      by rewrite (patch_all_frame _ _ _ _ Hd' Hk0), lookup_insert_eq.
    + assert (k ≠ k0).
      { intros ->. apply Hk0, list_elem_of_fmap. by exists (k0, v). }
      destruct (Hall k v Hin) as (c & Hc & Hr).
      rewrite lookup_insert_ne in Hc by done. by exists c.
Qed.

Lemma patch_distinct (ps : patches) (d : gmap string column) :
  NoDup ps.*1 →
  (∀ k v, (k, v) ∈ ps → ∃ c, d !! k = Some c ∧ is_ok (slice_assign c v) = true) →
  ∃ d', patch d ps = Ok d'
        ∧ ∀ k v, (k, v) ∈ ps →
            ∃ c, d !! k = Some c ∧ Some <$> slice_assign c v = Ok (d' !! k).
Proof.
  intros Hnd Hps. unfold patch.
  replace (forallb _ ps) with true; [by apply patch_all_distinct|].
  symmetry. apply forallb_forall. intros [k v] Hin%list_elem_of_In.
  destruct (Hps k v Hin) as (c & Hc & _). simpl. rewrite Hc.
  by apply bool_decide_eq_true.
Qed.

(** ** The uptake patch *)

Lemma uptake_columns_length (df : DataFrame) (p : float) (L : Uptake) :
  rectangular df = true → uptake_columns (Some df) p = Ok L →
  Forall (fun c => length c = length (index df))
         [L_x L; L_y L; L_nx L; L_ny L; L_n L].
Proof.
  intros Hr H. unfold uptake_columns in H. inv_ok H. simplify_eq. simpl.
  repeat match goal with
  | H : values _ _ _ = Ok _ |- _ => apply (values_length _ _ _ _ Hr) in H
  end.
  apply binop_Ok_length in Ha3 as [_ ?]; [|congruence].
  repeat constructor; congruence.
Qed.

Lemma gen_data_uptake (m : DataModel) (full : gmap string column) :
  gen_data m = Ok full →
  ∃ L, uptake_columns (_dfs m) (lp (par m)) = Ok L
       ∧ full !! "L_x"%string = Some (ColArray (L_x L))
       ∧ full !! "L_y"%string = Some (ColArray (L_y L))
       ∧ full !! "L_nx"%string = Some (ColArray (L_nx L))
       ∧ full !! "L_ny"%string = Some (ColArray (L_ny L))
       ∧ full !! "L_n"%string = Some (ColArray (L_n L)).
Proof.
  intros H. unfold gen_data in H. inv_ok H. simplify_eq.
  match goal with HL : uptake_columns _ _ = Ok ?L |- _ => exists L end.
  split; [done|]. repeat split; vm_compute; reflexivity.
Qed.

Lemma slice_assign_array (v a : list float) :
  length v = length a → slice_assign (ColArray a) v = Ok (ColArray v).
Proof. intros Hl. simpl. by rewrite Hl, Nat.eqb_refl. Qed.

(** On one and the same stats table the values of the uptake patch are
    those of [gen_data]: on a rectangular table, for a snapshot whose
    uptake columns are arrays with one entry per material, whenever
    [gen_data] at pressure [p] succeeds, [patch_data_l] at [p] succeeds,
    its patch applies to the columns of the snapshot, and the patched
    columns hold the uptake columns of [gen_data]; every other column is
    untouched. *)
Lemma patch_data_l_consistent (m : DataModel) (df : DataFrame) (p : float)
    (full : gmap string column) :
  _dfs m = Some df → rectangular df = true →
  (∀ k, k ∈ uptake_keys →
     ∃ a, data m !! k = Some (ColArray a) ∧ length a = length (index df)) →
  gen_data (set_par (set_lp p (par m)) m) = Ok full →
  ∃ ps d, patch_data_l (set_par (set_lp p (par m)) m) = Ok ps
          ∧ patch (data m) ps = Ok d
          ∧ (∀ k, k ∈ uptake_keys → d !! k = full !! k)
          ∧ (∀ k, k ∉ uptake_keys → d !! k = data m !! k).
Proof.
  intros Hdf Hr Hshape Hfull.
  apply gen_data_uptake in Hfull as (L & HL & Hx & Hy & Hnx & Hny & Hn).
  simpl in HL. rewrite Hdf in HL.
  pose proof (uptake_columns_length _ _ _ Hr HL) as Hlen.
  rewrite !Forall_cons in Hlen.
  destruct Hlen as (Lx & Ly & Lnx & Lny & Ln & _).
  unfold patch_data_l. simpl. rewrite Hdf, HL. simpl.
  set (ps := [("L_x"%string, L_x L); _; _; _; _]).
  assert (Hps : ∀ k v, (k, v) ∈ ps →
            k ∈ uptake_keys ∧ length v = length (index df)
            ∧ full !! k = Some (ColArray v)).
  { intros k v Hin. unfold ps, uptake_keys in *.
    repeat (apply elem_of_cons in Hin as [[= -> ->]|Hin];
            [split; [set_solver|done]|]).
    by apply elem_of_nil in Hin. }
  destruct (patch_distinct ps (data m)) as (d & Hd & Hall).
  { by apply (bool_decide_unpack _); vm_compute. }
  { intros k v (Hk & Hv & _)%Hps. destruct (Hshape k Hk) as (a & Ha & Hla).
    exists (ColArray a). split; [done|].
    rewrite slice_assign_array; [done|congruence]. }
  exists ps, d. split; [done|]. split; [done|]. split.
  - intros k Hk.
    assert (∃ v, (k, v) ∈ ps) as [v Hin].
    { unfold ps, uptake_keys in *.
      repeat (apply elem_of_cons in Hk as [->|Hk];
        [eexists; repeat first [apply list_elem_of_here
                               |apply list_elem_of_further]|]).
      by apply elem_of_nil in Hk. }
    destruct (Hps k v Hin) as (_ & Hv & ->).
    destruct (Hall k v Hin) as (c & Hc & Hr').
    destruct (Hshape k Hk) as (a & Ha & Hla). simplify_eq.
    rewrite slice_assign_array in Hr' by congruence. simpl in Hr'. congruence.
  - intros k Hk. by apply (patch_frame ps).
Qed.

(** ** The working capacity patch *)

(** C4: the working capacity patch and the full recompute disagree on the
    screening metric.  On the model of [Demo], moving the working capacity
    range to (1, 5): [patch_data_w] succeeds and its patch applies, the
    full recompute [gen_data] with the same parameters succeeds, the five
    working capacity columns [W_x], [W_y], [W_nx], [W_ny] and [W_n] of the
    two snapshots are equal, yet for the first material the patched
    [psa_W] is [(W_y / W_x) * sel = (6 / 4) * (8 / 3)] where the recompute
    has [(K_y / W_x) * sel = (8 / 4) * (8 / 3)], and the two differ. *)
Theorem patch_data_w_psa_W_diverges :
  let m := set_par (set_p1_p2 1 5 (par Demo.model0)) Demo.model0 in
  ∃ ps d full,
    patch_data_w m = Ok ps
    ∧ patch (data Demo.model0) ps = Ok d
    ∧ gen_data m = Ok full
    ∧ (∀ k, k ∈ workcap_keys → d !! k = full !! k)
    ∧ float_at d "K_y" 0 = Ok 8 ∧ float_at d "sel" 0 = Ok (8 / 3)
    ∧ float_at d "W_x" 0 = Ok 4 ∧ float_at d "W_y" 0 = Ok 6
    ∧ float_at d "psa_W" 0 = Ok ((6 / 4) * (8 / 3))
    ∧ float_at full "psa_W" 0 = Ok ((8 / 4) * (8 / 3))
    ∧ (6 / 4) * (8 / 3) ≠ (8 / 4) * (8 / 3)
    ∧ d !! "psa_W"%string ≠ full !! "psa_W"%string.
Proof.
  intros m.
  exists (get_ok [] (patch_data_w m)).
  exists (get_ok ∅ (ps ← patch_data_w m; patch (data Demo.model0) ps)).
  exists (get_ok ∅ (gen_data m)).
  assert (Hneq : (6 / 4) * (8 / 3) ≠ (8 / 4) * (8 / 3)) by float_neq.
  split; [vm_compute; reflexivity|].
  split; [vm_compute; reflexivity|].
  split; [vm_compute; reflexivity|].
  split.
  { intros k Hk. unfold workcap_keys in Hk.
    repeat (apply elem_of_cons in Hk as [->|Hk]; [vm_compute; reflexivity|]).
    by apply elem_of_nil in Hk. }
  do 6 (split; [vm_compute; reflexivity|]).
  split; [exact Hneq|].
  intros Heq. apply Hneq.
  assert (get_ok 0 (float_at (get_ok ∅ (ps ← patch_data_w m;
                                        patch (data Demo.model0) ps))
                             "psa_W" 0)
          = get_ok 0 (float_at (get_ok ∅ (gen_data m)) "psa_W" 0)) as H.
  { unfold float_at. by rewrite Heq. }
  vm_compute in H. vm_compute. exact H.
Qed.

(** ** Selection without shared materials *)

(** C5: when the two adsorbate subsets share no material, [select_data]
    returns [None] and raises nothing, but the full recompute [calculate]
    does not yield an empty snapshot: it stores [None] as the stats table
    and ends with the [TypeError] of subscripting [None] in [gen_data],
    leaving the previous snapshot in place. *)
Theorem calculate_no_shared_material_raises (m : DataModel) :
  shared_mats (_df m) (iso_type (par m)) (t_abs (par m)) (t_tol (par m))
              (g1 (par m)) (g2 (par m)) = [] →
  select_data (_df m) (iso_type (par m)) (t_abs (par m)) (t_tol (par m))
              (g1 (par m)) (g2 (par m)) = None
  ∧ calculate m = (set_dfs None m, Raise TypeError)
  ∧ data (calculate m).1 = data m.
Proof.
  intros H.
  assert (select_data (_df m) (iso_type (par m)) (t_abs (par m)) (t_tol (par m))
                      (g1 (par m)) (g2 (par m)) = None) as Hsel.
  { unfold select_data. unfold shared_mats in H. by rewrite H. }
  split; [exact Hsel|].
  unfold calculate. rewrite Hsel. by split.
Qed.

Lemma calculate_no_shared_material_raises_witness :
  select_data Demo.raw None 303 10 "ethane" "ethene" = None
  ∧ calculate Demo.disjoint = (set_dfs None Demo.disjoint, Raise TypeError)
  ∧ data (calculate Demo.disjoint).1 = data Demo.disjoint.
Proof.
  apply (calculate_no_shared_material_raises Demo.disjoint).
  vm_compute. reflexivity.
Defined.

(** ** The error overlay *)

Lemma nan_guard_nan (x y : float) (errs : result (float * float)) :
  Np.isnan x || Np.isnan y = true → nan_guard x y errs = Ok (mkFam 0 0 0 0).
Proof. intros H. unfold nan_guard. by rewrite H. Qed.

Lemma nan_guard_values (x y : float) (errs : result (float * float)) :
  Np.isnan x || Np.isnan y = false →
  nan_guard x y errs = (e ← errs; Ok (mkFam x y e.1 e.2)).
Proof. intros H. unfold nan_guard. by rewrite H. Qed.

(** The NaN guard, row by row.  For a selected row whose label and six
    paired values can be read from the snapshot, and for which the error
    lookups of every family without a NaN succeed, the row is generated
    and carries the label; a family with a NaN in either paired value gets
    0 for both values and both error terms, whatever its error lookups
    would do; a family without NaN keeps its values with the error terms
    read from the stats table, the working capacity error being the sum of
    the errors at the two boundary pressures, per adsorbate. *)
Lemma gen_error_row_nan_guard (m : DataModel) (index : nat) (mat : string)
    (K_x K_y L_x L_y W_x W_y : float) :
  label_at (data m) index = Ok mat →
  float_at (data m) "K_x" index = Ok K_x →
  float_at (data m) "K_y" index = Ok K_y →
  float_at (data m) "L_x" index = Ok L_x →
  float_at (data m) "L_y" index = Ok L_y →
  float_at (data m) "W_x" index = Ok W_x →
  float_at (data m) "W_y" index = Ok W_y →
  (Np.isnan K_x || Np.isnan K_y = false →
   is_ok (henry_errors (_dfs m) mat) = true) →
  (Np.isnan L_x || Np.isnan L_y = false →
   is_ok (uptake_errors (_dfs m) mat (lp (par m))) = true) →
  (Np.isnan W_x || Np.isnan W_y = false →
   is_ok (workcap_errors (_dfs m) mat (p1 (par m)) (p2 (par m))) = true) →
  ∃ r, gen_error_row m index = Ok r
    ∧ gen_error m (Some [index]) = Ok (error_dict [r])
    ∧ row_mat r = mat
    ∧ error_dict [r] !! "labels"%string = Some (ColStr [mat; mat])
    ∧ (Np.isnan K_x || Np.isnan K_y = true → row_K r = mkFam 0 0 0 0)
    ∧ (Np.isnan L_x || Np.isnan L_y = true → row_L r = mkFam 0 0 0 0)
    ∧ (Np.isnan W_x || Np.isnan W_y = true → row_W r = mkFam 0 0 0 0)
    ∧ (Np.isnan K_x || Np.isnan K_y = false →
       ∃ ex ey, loc (_dfs m) mat "kH_x" "err" = Ok ex
              ∧ loc (_dfs m) mat "kH_y" "err" = Ok ey
              ∧ row_K r = mkFam K_x K_y ex ey)
    ∧ (Np.isnan L_x || Np.isnan L_y = false →
       ∃ ex ey, loc (_dfs m) mat (key_x (lp (par m))) "err" = Ok ex
              ∧ loc (_dfs m) mat (key_y (lp (par m))) "err" = Ok ey
              ∧ row_L r = mkFam L_x L_y ex ey)
    ∧ (Np.isnan W_x || Np.isnan W_y = false →
       ∃ a b c d, loc (_dfs m) mat (key_x (p1 (par m))) "err" = Ok a
                ∧ loc (_dfs m) mat (key_x (p2 (par m))) "err" = Ok b
                ∧ loc (_dfs m) mat (key_y (p1 (par m))) "err" = Ok c
                ∧ loc (_dfs m) mat (key_y (p2 (par m))) "err" = Ok d
                ∧ row_W r = mkFam W_x W_y (a + b) (c + d))
    ∧ (∀ f, f = mkFam 0 0 0 0 →
         pts_x f = [0; 0] ∧ pts_y f = [0; 0]
         ∧ seg_x0 f = [0; 0] ∧ seg_y0 f = [0; 0]
         ∧ seg_x1 f = [0; 0] ∧ seg_y1 f = [0; 0]).
Proof.
  intros Hmat HKx HKy HLx HLy HWx HWy HK HL HW.
  assert (∃ K, nan_guard K_x K_y (henry_errors (_dfs m) mat) = Ok K
    ∧ (Np.isnan K_x || Np.isnan K_y = true → K = mkFam 0 0 0 0)
    ∧ (Np.isnan K_x || Np.isnan K_y = false →
       ∃ ex ey, loc (_dfs m) mat "kH_x" "err" = Ok ex
              ∧ loc (_dfs m) mat "kH_y" "err" = Ok ey
              ∧ K = mkFam K_x K_y ex ey)) as (K & HgK & HK1 & HK2).
  { destruct (Np.isnan K_x || Np.isnan K_y) eqn:Hg.
    - exists (mkFam 0 0 0 0). rewrite nan_guard_nan by done. by repeat split.
    - rewrite nan_guard_values by done. specialize (HK eq_refl).
      unfold henry_errors in *.
      destruct (loc (_dfs m) mat "kH_x" "err") as [ex|]; [|done].
      destruct (loc (_dfs m) mat "kH_y" "err") as [ey|]; [|done].
      exists (mkFam K_x K_y ex ey). split; [done|]. split; [done|].
      intros _. by exists ex, ey. }
  assert (∃ L, nan_guard L_x L_y (uptake_errors (_dfs m) mat (lp (par m))) = Ok L
    ∧ (Np.isnan L_x || Np.isnan L_y = true → L = mkFam 0 0 0 0)
    ∧ (Np.isnan L_x || Np.isnan L_y = false →
       ∃ ex ey, loc (_dfs m) mat (key_x (lp (par m))) "err" = Ok ex
              ∧ loc (_dfs m) mat (key_y (lp (par m))) "err" = Ok ey
              ∧ L = mkFam L_x L_y ex ey)) as (L & HgL & HL1 & HL2).
  { destruct (Np.isnan L_x || Np.isnan L_y) eqn:Hg.
    - exists (mkFam 0 0 0 0). rewrite nan_guard_nan by done. by repeat split.
    - rewrite nan_guard_values by done. specialize (HL eq_refl).
      unfold uptake_errors in *.
      destruct (loc (_dfs m) mat (key_x _) "err") as [ex|]; [|done].
      destruct (loc (_dfs m) mat (key_y _) "err") as [ey|]; [|done].
      exists (mkFam L_x L_y ex ey). split; [done|]. split; [done|].
      intros _. by exists ex, ey. }
  assert (∃ W, nan_guard W_x W_y
                 (workcap_errors (_dfs m) mat (p1 (par m)) (p2 (par m))) = Ok W
    ∧ (Np.isnan W_x || Np.isnan W_y = true → W = mkFam 0 0 0 0)
    ∧ (Np.isnan W_x || Np.isnan W_y = false →
       ∃ a b c d, loc (_dfs m) mat (key_x (p1 (par m))) "err" = Ok a
                ∧ loc (_dfs m) mat (key_x (p2 (par m))) "err" = Ok b
                ∧ loc (_dfs m) mat (key_y (p1 (par m))) "err" = Ok c
                ∧ loc (_dfs m) mat (key_y (p2 (par m))) "err" = Ok d
                ∧ W = mkFam W_x W_y (a + b) (c + d))) as (W & HgW & HW1 & HW2).
  { destruct (Np.isnan W_x || Np.isnan W_y) eqn:Hg.
    - exists (mkFam 0 0 0 0). rewrite nan_guard_nan by done. by repeat split.
    - rewrite nan_guard_values by done. specialize (HW eq_refl).
      unfold workcap_errors in *.
      destruct (loc (_dfs m) mat (key_x (p1 _)) "err") as [a|]; [|done].
      destruct (loc (_dfs m) mat (key_x (p2 _)) "err") as [b|]; [|done].
      destruct (loc (_dfs m) mat (key_y (p1 _)) "err") as [c|]; [|done].
      destruct (loc (_dfs m) mat (key_y (p2 _)) "err") as [d|]; [|done].
      exists (mkFam W_x W_y (a + b) (c + d)). split; [done|]. split; [done|].
      intros _. by exists a, b, c, d. }
  assert (gen_error_row m index = Ok (mkErrRow mat K L W)) as Hrow.
  { unfold gen_error_row.
    rewrite Hmat, HKx, HKy, HLx, HLy, HWx, HWy. simpl.
    rewrite HgK, HgL, HgW. reflexivity. }
  exists (mkErrRow mat K L W).
  split; [exact Hrow|].
  split; [simpl; rewrite Hrow; reflexivity|].
  split; [reflexivity|].
  split; [reflexivity|].
  do 6 (split; [assumption|]).
  intros f ->. vm_compute. by repeat split.
Qed.

(** ** The uptake patch of the overlay *)

Lemma gen_error_dict (m : DataModel) (indices : option (list nat))
    (e : gmap string column) :
  gen_error m indices = Ok e → ∃ rows, e = error_dict rows.
Proof.
  destruct indices as [indices|]; simpl.
  - intros H. apply bind_Ok in H as (rows & _ & [= <-]). by exists rows.
  - intros [= <-]. by exists [].
Qed.

Lemma patch_error_l_family (m : DataModel) (indices : option (list nat))
    (ps : patches) :
  patch_error_l m indices = Ok ps → ∃ rows, ps = family_patches "L" rows.
Proof.
  destruct indices as [indices|]; simpl.
  - intros H. apply bind_Ok in H as (rows & _ & [= <-]). by exists rows.
  - intros [= <-]. by exists [].
Qed.

(** Every float column of the overlay is a Python list. *)
Lemma error_dict_family (rows : list ErrRow) (k : string) :
  k ∈ family_keys "K" ++ family_keys "L" ++ family_keys "W" →
  ∃ l, error_dict rows !! k = Some (ColList l).
Proof.
  intros Hk. vm_compute in Hk.
  repeat (apply elem_of_cons in Hk as [->|Hk]; [eexists; reflexivity|]).
  by apply elem_of_nil in Hk.
Qed.

Lemma family_patches_keys (l : string) (rows : list Fam) :
  (family_patches l rows).*1 = family_keys l.
Proof. reflexivity. Qed.

(** C7: the uptake patch of the overlay touches the uptake family only.
    Whatever overlay [gen_error] produced for a selection, a patch made by
    [patch_error_l], for any model and any selection, applies to it, and
    the patched overlay has every key outside the six uptake keys, among
    them the labels and the twelve working capacity and Henry keys, exactly
    as before; the six uptake keys hold the lists of the patch. *)
Theorem patch_error_l_frame (m m' : DataModel)
    (indices indices' : option (list nat))
    (e : gmap string column) (ps : patches) :
  gen_error m indices = Ok e →
  patch_error_l m' indices' = Ok ps →
  ∃ e', patch e ps = Ok e'
      ∧ (∀ k, k ∉ family_keys "L" → e' !! k = e !! k)
      ∧ (∀ k, k ∈ family_keys "W" ++ family_keys "K" → e' !! k = e !! k)
      ∧ e' !! "labels"%string = e !! "labels"%string
      ∧ (∀ k v, (k, v) ∈ ps → e' !! k = Some (ColList v)).
Proof.
  intros (rows & ->)%gen_error_dict (fams & ->)%patch_error_l_family.
  destruct (patch_distinct (family_patches "L" fams) (error_dict rows))
    as (e' & He' & Hall).
  { rewrite family_patches_keys. by apply (bool_decide_unpack _); vm_compute. }
  { intros k v Hin.
    destruct (error_dict_family rows k) as (l & Hl).
    { apply elem_of_app. right. apply elem_of_app. left.
      rewrite <- (family_patches_keys "L" fams).
      apply list_elem_of_fmap. by exists (k, v). }
    exists (ColList l). by split. }
  assert (Hframe : ∀ k, k ∉ family_keys "L" → e' !! k = error_dict rows !! k).
  { intros k Hk. apply (patch_frame _ _ _ _ He').
    by rewrite family_patches_keys. }
  exists e'. split; [exact He'|]. split; [exact Hframe|]. split; [|split].
  - intros k Hk. apply Hframe. intros HL. vm_compute in Hk, HL.
    repeat (apply elem_of_cons in Hk as [->|Hk];
            [by repeat (apply elem_of_cons in HL as [[=]|HL]);
                apply elem_of_nil in HL|]).
    by apply elem_of_nil in Hk.
  - apply Hframe. intros HL. vm_compute in HL.
    repeat (apply elem_of_cons in HL as [[=]|HL]). by apply elem_of_nil in HL.
  - intros k v Hin. destruct (Hall k v Hin) as (c & Hc & Hs).
    destruct (error_dict_family rows k) as (l & Hl).
    { apply elem_of_app. right. apply elem_of_app. left.
      rewrite <- (family_patches_keys "L" fams).
      apply list_elem_of_fmap. by exists (k, v). }
    rewrite Hl in Hc. injection Hc as <-. simpl in Hs. by injection Hs as <-.
Qed.

Lemma patch_error_l_frame_witness :
  let e := get_ok ∅ (gen_error Demo.model0 (Some [0; 1]%nat)) in
  let m' := set_par (set_lp 1 (par Demo.model0)) Demo.model0 in
  let ps := get_ok [] (patch_error_l m' (Some [0; 1]%nat)) in
  ∃ e', patch e ps = Ok e'
      ∧ (∀ k, k ∉ family_keys "L" → e' !! k = e !! k)
      ∧ (∀ k, k ∈ family_keys "W" ++ family_keys "K" → e' !! k = e !! k)
      ∧ e' !! "labels"%string = e !! "labels"%string
      ∧ (∀ k v, (k, v) ∈ ps → e' !! k = Some (ColList v)).
Proof.
  intros e m' ps.
  apply (patch_error_l_frame Demo.model0 m' (Some [0; 1]%nat) (Some [0; 1]%nat)).
  - vm_compute. reflexivity.
  - vm_compute. reflexivity.
Defined.

(** ** The isotherm loaders *)

Lemma length_pressure_steps (loading : list float) :
  length (pressure_steps loading) = (length loading + 1)%nat.
Proof. unfold pressure_steps. by rewrite length_map, length_seq. Qed.

Lemma lookup_pressure_steps (loading : list float) (i : nat) :
  (i ≤ length loading)%nat →
  pressure_steps loading !! i = Some (Np.of_nat i * 0.5).
Proof.
  intros Hi. unfold pressure_steps.
  rewrite list_lookup_fmap, lookup_seq_lt by lia. reflexivity.
Qed.

(** The adsorbate and the coroutine of a slot of [populate_isos]. *)
Lemma populate_isos_slot (load : string → option Iso) (m : DataModel)
    (index : nat) (mat : string) :
  label_at (data m) index = Ok mat →
  populate_isos load m index "g1" = populate_slot load m mat (g1 (par m)) Update_g1
  ∧ populate_isos load m index "g2" = populate_slot load m mat (g2 (par m)) Update_g2.
Proof. intros H. unfold populate_isos. rewrite H. by split. Qed.

(** C10: the median curve of a loader.  For a selected row and either
    slot, once the label of the row and its loading sequence are read, the
    first callback the loader queues carries the median curve: the loading
    sequence paired with the pressure sequence 0, 0.5, ..., 0.5 * n, which
    has one element more than the n loadings. *)
Theorem populate_isos_median_shape (load : string → option Iso)
    (m : DataModel) (index : nat) (ads mat : string) (loading : list float) :
  ads = "g1"%string ∨ ads = "g2"%string →
  label_at (data m) index = Ok mat →
  loc_mL (_dfs m) mat (if String.eqb ads "g1" then g1 (par m) else g2 (par m))
    = Ok loading →
  ∃ cb rest,
    (populate_isos load m index ads).1 = cb :: rest
    ∧ cb_target cb = (if String.eqb ads "g1" then Update_g1 else Update_g2)
    ∧ iso_label (cb_iso cb) = "median"%string
    ∧ iso_y (cb_iso cb) = loading
    ∧ length (iso_x (cb_iso cb)) = (length (iso_y (cb_iso cb)) + 1)%nat
    ∧ (∀ i, (i ≤ length loading)%nat →
         iso_x (cb_iso cb) !! i = Some (Np.of_nat i * 0.5)).
Proof.
  intros Hads Hmat Hload.
  destruct (populate_isos_slot load m index mat Hmat) as [H1 H2].
  destruct Hads as [-> | ->]; simpl in Hload.
  - rewrite H1. unfold populate_slot. rewrite Hload.
    destruct (loc_iso _ _ _); simpl; do 2 eexists;
      (split; [reflexivity|]); simpl;
      repeat split; auto using length_pressure_steps, lookup_pressure_steps.
  - rewrite H2. unfold populate_slot. rewrite Hload.
    destruct (loc_iso _ _ _); simpl; do 2 eexists;
      (split; [reflexivity|]); simpl;
      repeat split; auto using length_pressure_steps, lookup_pressure_steps.
Qed.

Lemma populate_isos_median_shape_witness :
  ∃ cb rest,
    (populate_isos Demo.load_isotherm Demo.model1 0 "g1").1 = cb :: rest
    ∧ cb_target cb = Update_g1
    ∧ iso_label (cb_iso cb) = "median"%string
    ∧ iso_y (cb_iso cb) = [1; 3; 7]
    ∧ length (iso_x (cb_iso cb)) = (length (iso_y (cb_iso cb)) + 1)%nat
    ∧ (∀ i, (i ≤ 3)%nat → iso_x (cb_iso cb) !! i = Some (Np.of_nat i * 0.5)).
Proof.
  apply (populate_isos_median_shape Demo.load_isotherm Demo.model1 0
           "g1" "MOF-A" [1; 3; 7]).
  - left. reflexivity.
  - vm_compute. reflexivity.
  - vm_compute. reflexivity.
Defined.

Lemma set_g1_iso_sel_same (m : DataModel) : set_g1_iso_sel (g1_iso_sel m) m = m.
Proof. by destruct m. Qed.

Lemma set_g2_iso_sel_same (m : DataModel) : set_g2_iso_sel (g2_iso_sel m) m = m.
Proof. by destruct m. Qed.

(** A callback queued without a colour asks the model for its palette,
    which it does not have: nothing is streamed. *)
Lemma run_callback_no_color (m : DataModel) (cb : Callback) :
  cb_color cb = None → run_callback m cb = (m, Raise AttributeError).
Proof.
  intros H. unfold run_callback, iso_update_g1, iso_update_g2, iso_update.
  rewrite H. destruct (cb_target cb); simpl.
  - by rewrite set_g1_iso_sel_same.
  - by rewrite set_g2_iso_sel_same.
Qed.

(** C9: the colours of the curves of a loader.  When the label, the
    loading sequence and the isotherm references of the selected row are
    read, the loader queues the median curve first, with the fixed colour
    k, and then one callback per reference the parser accepts, in order;
    none of these carries a colour.  Running such a callback ends with the
    [AttributeError] of reading the palette [c_cyc] off the data model and
    leaves the model, and so its curve sets, as it was: no parsed curve is
    ever coloured or shown. *)
Theorem parsed_curves_raise_on_palette (load : string → option Iso)
    (m : DataModel) (mat ads : string) (t : target)
    (loading : list float) (refs : list string) :
  loc_mL (_dfs m) mat ads = Ok loading →
  loc_iso (_dfs m) mat ads = Ok refs →
  ∃ rest,
    populate_slot load m mat ads t
    = (mkCallback t (mkIso "median" loading (pressure_steps loading) "" "")
                  (Some "k"%string) :: rest, Ok ())
    ∧ map cb_iso rest = omap load refs
    ∧ pick_color (Some "k"%string) = Ok "k"%string
    ∧ (∀ cb, cb ∈ rest → cb_target cb = t ∧ cb_color cb = None)
    ∧ (∀ cb m', cb ∈ rest → run_callback m' cb = (m', Raise AttributeError)).
Proof.
  intros Hload Hrefs. unfold populate_slot. rewrite Hload, Hrefs.
  eexists. split; [reflexivity|].
  assert (Hrest : ∀ cb,
    cb ∈ omap (fun iso => (fun parsed => mkCallback t parsed None) <$> load iso)
              refs → cb_target cb = t ∧ cb_color cb = None).
  { intros cb (ref & _ & Hcb)%list_elem_of_omap.
    destruct (load ref); simplify_eq/=. by split. }
  split; [|split; [reflexivity|split; [exact Hrest|]]].
  - clear. induction refs as [|ref refs IH]; [done|].
    simpl. destruct (load ref); simpl; [f_equal|]; exact IH.
  - intros cb m' Hcb. apply run_callback_no_color. by apply Hrest.
Qed.

Lemma parsed_curves_raise_on_palette_witness :
  ∃ rest,
    populate_slot Demo.load_isotherm Demo.model1 "MOF-A" "propane" Update_g1
    = (mkCallback Update_g1
         (mkIso "median" [1; 3; 7] (pressure_steps [1; 3; 7]) "" "")
         (Some "k"%string) :: rest, Ok ())
    ∧ map cb_iso rest = omap Demo.load_isotherm ["a1"; "broken"]%string
    ∧ pick_color (Some "k"%string) = Ok "k"%string
    ∧ (∀ cb, cb ∈ rest → cb_target cb = Update_g1 ∧ cb_color cb = None)
    ∧ (∀ cb m', cb ∈ rest → run_callback m' cb = (m', Raise AttributeError)).
Proof.
  apply (parsed_curves_raise_on_palette Demo.load_isotherm Demo.model1).
  - vm_compute. reflexivity.
  - vm_compute. reflexivity.
Defined.

(** ** Selections and the callbacks of earlier loaders *)

(** C2, as claimed, fails: material 0 is selected and its loader queues
    the median curve, material 1 is selected, then the queued callback
    runs.  The curve set of the first gas now holds the median curve of
    material 0, which no loader of material 1 produces. *)
Lemma stale_curve_is_shown :
  ¬ only_current_curves Demo.load_isotherm
      (run Demo.load_isotherm (mkSession Demo.model1 [] []) Demo.stale_run).
Proof.
  intros H.
  set (s := run Demo.load_isotherm (mkSession Demo.model1 [] []) Demo.stale_run)
    in *.
  set (c := mkCurve "median" (pressure_steps [1; 3; 7]) [1; 3; 7] "" "" "k").
  assert (Hsrc : source (g1_iso_sel (model s)) = [c]) by (vm_compute; reflexivity).
  assert (Hsel : selected (model s) = [1%nat]) by (vm_compute; reflexivity).
  destruct (H c) as (index & Hindex & Hin).
  { rewrite Hsrc. apply list_elem_of_here. }
  rewrite Hsel in Hindex. injection Hindex as <-.
  apply (list_elem_of_fmap_2 (fun p => length p.2)) in Hin.
  vm_compute in Hin.
  repeat (apply elem_of_cons in Hin as [[=]|Hin]).
  by apply elem_of_nil in Hin.
Qed.

(** C2, amended: a queued callback is applied whatever is selected when
    it runs.  A callback that carries a colour appends its curve to the
    curve set of its gas and leaves the other curve set and the selection
    as they are; the curve sets are emptied only by [selection_callback],
    which, when the overlay of a non-empty selection can be generated,
    empties them before any loader starts. *)
Theorem queued_callback_ignores_selection (load : string → option Iso)
    (m : DataModel) (cb : Callback) (color : string) (sel new : list nat)
    (e : gmap string column) :
  cb_color cb = Some color → color ≠ ""%string →
  new ≠ [] → gen_error (set_selected sel m) (Some new) = Ok e →
  let curve := mkCurve (iso_label (cb_iso cb)) (iso_x (cb_iso cb))
                       (iso_y (cb_iso cb)) (iso_doi (cb_iso cb))
                       (iso_temp (cb_iso cb)) color in
  let m' := (run_callback (set_selected sel m) cb).1 in
  let m0 := (selection_callback load (set_selected sel m) new).1.1 in
  selected m' = sel
  ∧ match cb_target cb with
    | Update_g1 => source (g1_iso_sel m') = source (g1_iso_sel m) ++ [curve]
                   ∧ g2_iso_sel m' = g2_iso_sel m
    | Update_g2 => source (g2_iso_sel m') = source (g2_iso_sel m) ++ [curve]
                   ∧ g1_iso_sel m' = g1_iso_sel m
    end
  ∧ source (g1_iso_sel m0) = [] ∧ source (g2_iso_sel m0) = []
  ∧ errors m0 = e.
Proof.
  intros Hc Hne Hnew He curve m' m0.
  assert (Hpick : pick_color (cb_color cb) = Ok color).
  { rewrite Hc. unfold pick_color, truthy.
    destruct (String.eqb_spec color ""); [done|reflexivity]. }
  assert (Hsrc : ∀ p, source (iso_update p (cb_iso cb) (cb_color cb)).1
                      = source p ++ [curve]).
  { intros p. unfold iso_update. rewrite Hpick.
    destruct (last (iso_x (cb_iso cb))); [|reflexivity].
    destruct (last (iso_y (cb_iso cb)));
      repeat (destruct (PrimFloat.ltb _ _)); reflexivity. }
  split; [|split].
  - unfold m', run_callback. by destruct (cb_target cb).
  - unfold m', run_callback. destruct (cb_target cb); simpl.
    + by rewrite Hsrc.
    + by rewrite Hsrc.
  - unfold m0, selection_callback. rewrite He.
    destruct new as [|i [|j new]]; [done| |]; by repeat split.
Qed.

Lemma queued_callback_ignores_selection_witness :
  let cb := mkCallback Update_g1
              (mkIso "median" [1; 3; 7] (pressure_steps [1; 3; 7]) "" "")
              (Some "k"%string) in
  let m' := (run_callback (set_selected [1%nat] Demo.model1) cb).1 in
  selected m' = [1%nat]
  ∧ source (g1_iso_sel m')
    = source (g1_iso_sel Demo.model1)
      ++ [mkCurve "median" (pressure_steps [1; 3; 7]) [1; 3; 7] "" "" "k"]
  ∧ g2_iso_sel m' = g2_iso_sel Demo.model1.
Proof.
  intros cb m'.
  destruct (queued_callback_ignores_selection Demo.load_isotherm Demo.model1
              cb "k" [1%nat] [1%nat]
              (get_ok ∅ (gen_error (set_selected [1%nat] Demo.model1)
                                   (Some [1%nat]))))
    as (Hsel & [Hg1 Hg2] & _).
  - reflexivity.
  - discriminate.
  - discriminate.
  - vm_compute. reflexivity.
  - by repeat split.
Defined.

(** * Further properties *)

(** ** The stats table of [select_data] *)

Lemma elem_of_unique (l : list string) (x : string) : x ∈ unique l ↔ x ∈ l.
Proof.
  induction l as [|y l IH]; simpl; [done|].
  rewrite !elem_of_cons, list_elem_of_In, filter_In, <- list_elem_of_In, IH.
  destruct (String.eqb_spec x y) as [->|Hne]; simpl; [tauto|].
  split; [tauto|]. intros [?|?]; [done|tauto].
Qed.

Lemma NoDup_filter_bool {A} (f : A → bool) (l : list A) :
  NoDup l → NoDup (List.filter f l).
Proof.
  induction 1 as [|x l Hx Hl IH]; simpl; [constructor|].
  destruct (f x); [|done]. constructor; [|done].
  rewrite list_elem_of_In, filter_In, <- list_elem_of_In. tauto.
Qed.

Lemma NoDup_unique (l : list string) : NoDup (unique l).
Proof.
  induction l as [|y l IH]; simpl; constructor.
  - rewrite list_elem_of_In, filter_In. intros [_ H].
    by rewrite String.eqb_refl in H.
  - by apply NoDup_filter_bool.
Qed.

Lemma filter_filter_comm {A} (f g : A → bool) (l : list A) :
  List.filter f (List.filter g l) = List.filter g (List.filter f l).
Proof.
  induction l as [|x l IH]; simpl; [done|].
  destruct (f x) eqn:Hf, (g x) eqn:Hg; simpl; rewrite ?Hf, ?Hg, ?IH; done.
Qed.

Lemma filter_drop_rejected (f : string → bool) (x : string) (l : list string) :
  f x = false →
  List.filter f (List.filter (fun y => negb (String.eqb y x)) l) = List.filter f l.
Proof.
  intros Hx. induction l as [|y l IH]; simpl; [done|].
  destruct (String.eqb_spec y x) as [->|Hne]; simpl.
  - by rewrite Hx.
  - by rewrite IH.
Qed.

(** De-duplication commutes with filtering. *)
Lemma unique_filter (f : string → bool) (l : list string) :
  unique (List.filter f l) = List.filter f (unique l).
Proof.
  induction l as [|x l IH]; simpl; [done|].
  destruct (f x) eqn:Hx; simpl.
  - by rewrite IH, filter_filter_comm.
  - by rewrite IH, filter_drop_rejected.
Qed.

Lemma map_filter_comm {A B} (g : A → B) (f : B → bool) (l : list A) :
  map g (List.filter (fun a => f (g a)) l) = List.filter f (map g l).
Proof.
  induction l as [|x l IH]; simpl; [done|].
  destruct (f (g x)); simpl; by rewrite IH.
Qed.

Lemma stat_columns_length (name : string) (j : nat) (rows : list (list Stat))
    (k : string * string) (c : list float) :
  (k, c) ∈ stat_columns name j rows → length c = length rows.
Proof.
  unfold stat_columns. intros H.
  repeat (apply elem_of_cons in H as [[= -> ->]|H]; [by rewrite length_map|]).
  by apply elem_of_nil in H.
Qed.

Lemma merge_rectangular (cols : list string)
    (left right : list (string * list Stat)) :
  rectangular (merge cols left right) = true.
Proof.
  unfold rectangular. apply forallb_forall.
  intros [k c] Hin%list_elem_of_In%elem_of_map_to_list.
  apply Nat.eqb_eq. simpl in *. rewrite length_map.
  apply elem_of_list_to_map_2, elem_of_app in Hin.
  destruct Hin as [Hin|Hin];
    apply list_elem_of_join in Hin as (l & Hin & Hl);
    apply elem_of_lookup_imap in Hl as (j & c0 & -> & _);
    apply stat_columns_length in Hin; by rewrite Hin, length_map.
Qed.

Lemma calc_kpi_keys (n : nat) (groups : list (string * list RawRow)) :
  map fst (calc_kpi n groups) = map fst groups.
Proof. unfold calc_kpi. rewrite map_map. reflexivity. Qed.

Lemma groupby_mat_keys (rows : list RawRow) :
  map fst (groupby_mat rows) = unique_mats rows.
Proof. unfold groupby_mat. rewrite map_map. simpl. apply map_id. Qed.

(** An inner join whose left keys all occur on the right keeps the left
    keys, in their order. *)
Lemma merge_index (cols : list string) (left right : list (string * list Stat)) :
  (∀ k, k ∈ map fst left → k ∈ map fst right) →
  index (merge cols left right) = map fst left.
Proof.
  intros Hsub. simpl.
  induction left as [|l left IH]; simpl; [done|].
  destruct (list_find (λ r, r.1 = l.1) right) as [[i r]|] eqn:Hfind; simpl.
  - f_equal. apply IH. intros k Hk. apply Hsub. simpl. by right.
  - exfalso. apply list_find_None in Hfind.
    assert (l.1 ∈ map fst right) as Hin by (apply Hsub; simpl; left).
    apply list_elem_of_In, in_map_iff in Hin as (r & Hr & Hin).
    apply list_elem_of_In in Hin.
    rewrite Forall_forall in Hfind. by apply (Hfind r).
Qed.

Lemma filter_idem_elem (f : string → bool) (l : list string) :
  List.filter (fun m => bool_decide (m ∈ List.filter f l)) l = List.filter f l.
Proof.
  apply filter_ext_in. intros m Hm.
  destruct (f m) eqn:Hf.
  - apply bool_decide_eq_true, list_elem_of_In, filter_In. by split.
  - apply bool_decide_eq_false. intros Hin%list_elem_of_In%filter_In.
    destruct Hin as [_ Hin]. congruence.
Qed.

(** The materials of the rows of one adsorbate that are kept for the
    table are the shared materials. *)
Lemma unique_mats_shared (rows1 rows2 : list RawRow) :
  unique_mats (List.filter
                 (fun r => bool_decide (r_mat r ∈ common_mats rows1 rows2)) rows1)
  = common_mats rows1 rows2.
Proof.
  unfold unique_mats.
  pose proof (map_filter_comm r_mat
                (fun m => bool_decide (m ∈ common_mats rows1 rows2)) rows1) as H.
  simpl in H. rewrite H, unique_filter. unfold common_mats, unique_mats.
  apply filter_idem_elem.
Qed.

Lemma elem_of_common_mats (rows1 rows2 : list RawRow) (mat : string) :
  mat ∈ common_mats rows1 rows2
  ↔ (∃ r, r ∈ rows1 ∧ r_mat r = mat) ∧ (∃ r, r ∈ rows2 ∧ r_mat r = mat).
Proof.
  unfold common_mats, unique_mats.
  rewrite list_elem_of_In, filter_In, <- list_elem_of_In, bool_decide_eq_true.
  rewrite !elem_of_unique, !list_elem_of_In, !in_map_iff.
  setoid_rewrite list_elem_of_In. naive_solver.
Qed.

(** X1: the stats table is rectangular and indexed by the shared
    materials.  When [select_data] returns a table, its index lists the
    materials that have rows for both adsorbates after the type and
    temperature filter, each once, in the order of their first row for the
    first adsorbate; the index is not empty, and every numeric column has
    one entry per material. *)
Theorem select_data_table (data : RawData) (i_type : option string)
    (t_abs t_tol : float) (g1 g2 : string) (df : DataFrame) :
  select_data data i_type t_abs t_tol g1 g2 = Some df →
  index df = shared_mats data i_type t_abs t_tol g1 g2
  ∧ NoDup (index df)
  ∧ index df ≠ []
  ∧ rectangular df = true
  ∧ (∀ mat, mat ∈ index df ↔
       (∃ r, r ∈ filter_rows data i_type t_abs t_tol
             ∧ r_ads r = g1 ∧ r_mat r = mat)
       ∧ (∃ r, r ∈ filter_rows data i_type t_abs t_tol
               ∧ r_ads r = g2 ∧ r_mat r = mat)).
Proof.
  unfold select_data, shared_mats.
  set (dft := filter_rows data i_type t_abs t_tol).
  set (g1_filt := List.filter (fun r => String.eqb (r_ads r) g1) dft).
  set (g2_filt := List.filter (fun r => String.eqb (r_ads r) g2) dft).
  destruct (Nat.eqb_spec (length (common_mats g1_filt g2_filt)) 0) as [|Hne];
    [done|].
  intros [= <-].
  assert (Hidx : index (merge (d_cols data)
            (calc_kpi (length (d_cols data)) (groupby_mat (List.filter
               (fun r => bool_decide (r_mat r ∈ common_mats g1_filt g2_filt))
               g1_filt)))
            (calc_kpi (length (d_cols data)) (groupby_mat (List.filter
               (fun r => bool_decide (r_mat r ∈ common_mats g1_filt g2_filt))
               g2_filt))))
          = common_mats g1_filt g2_filt).
  { rewrite merge_index; rewrite !calc_kpi_keys, !groupby_mat_keys.
    - apply unique_mats_shared.
    - rewrite unique_mats_shared. intros k Hk.
      pose proof Hk as ((r1 & _) & (r2 & Hr2 & Hm))%elem_of_common_mats.
      apply list_elem_of_In. unfold unique_mats.
      apply list_elem_of_In, elem_of_unique, list_elem_of_In, in_map_iff.
      exists r2. split; [done|]. apply filter_In. split.
      + by apply list_elem_of_In.
      + apply bool_decide_eq_true. by rewrite Hm. }
  rewrite Hidx. split; [done|]. split; [|split; [|split]].
  - unfold common_mats. apply NoDup_filter_bool, NoDup_unique.
  - intros H. by rewrite H in Hne.
  - apply merge_rectangular.
  - intros mat. rewrite elem_of_common_mats. unfold g1_filt, g2_filt.
    setoid_rewrite list_elem_of_In. setoid_rewrite filter_In.
    setoid_rewrite String.eqb_eq. naive_solver.
Qed.

Lemma select_data_table_witness :
  index Demo.frame0 = ["MOF-A"; "MOF-B"]%string
  ∧ NoDup (index Demo.frame0)
  ∧ rectangular Demo.frame0 = true.
Proof.
  destruct (select_data_table Demo.raw None 303 10 "propane" "propene"
              Demo.frame0) as (Hidx & Hnd & _ & Hrect & _).
  - vm_compute. reflexivity.
  - split; [|by split]. rewrite Hidx. vm_compute. reflexivity.
Defined.

(** [select_data] returns [None] exactly when the two adsorbates share
    no material after the type and temperature filter. *)
Theorem select_data_None_iff (data : RawData) (i_type : option string)
    (t_abs t_tol : float) (g1 g2 : string) :
  select_data data i_type t_abs t_tol g1 g2 = None
  ↔ shared_mats data i_type t_abs t_tol g1 g2 = [].
Proof.
  unfold select_data, shared_mats.
  destruct (common_mats _ _) as [|mat l]; simpl; split; done.
Qed.

(** ** The snapshot and the working capacity patch *)

Ltac lengths Hr :=
  repeat match goal with
  | H : values _ _ _ = Ok _ |- _ => apply (values_length _ _ _ _ Hr) in H
  | H : Np.binop _ _ _ = Ok _ |- _ =>
    apply binop_Ok_length in H as [_ ?]; [|congruence]
  end.

Lemma workcap_columns_length (df : DataFrame) (p1 p2 : float) (W : WorkCap) :
  rectangular df = true → workcap_columns (Some df) p1 p2 = Ok W →
  Forall (fun c => length c = length (index df))
         [W_x W; W_y W; W_nx W; W_ny W; W_n W].
Proof.
  intros Hr H. unfold workcap_columns in H. inv_ok H. simplify_eq. simpl.
  lengths Hr. repeat constructor; congruence.
Qed.

Lemma gen_data_workcap (m : DataModel) (full : gmap string column) :
  gen_data m = Ok full →
  ∃ W, workcap_columns (_dfs m) (p1 (par m)) (p2 (par m)) = Ok W
       ∧ full !! "W_x"%string = Some (ColArray (W_x W))
       ∧ full !! "W_y"%string = Some (ColArray (W_y W))
       ∧ full !! "W_nx"%string = Some (ColArray (W_nx W))
       ∧ full !! "W_ny"%string = Some (ColArray (W_ny W))
       ∧ full !! "W_n"%string = Some (ColArray (W_n W)).
Proof.
  intros H. unfold gen_data in H. inv_ok H. simplify_eq.
  match goal with HW : workcap_columns _ _ _ = Ok ?W |- _ => exists W end.
  split; [done|]. repeat split; vm_compute; reflexivity.
Qed.

(** X2: the snapshot is rectangular.  When [gen_data] succeeds on a
    rectangular stats table, the labels of the snapshot are the index of
    the table and every array of the snapshot has one entry per
    material. *)
Theorem gen_data_rectangular (m : DataModel) (df : DataFrame)
    (full : gmap string column) :
  _dfs m = Some df → rectangular df = true → gen_data m = Ok full →
  full !! "labels"%string = Some (ColStr (index df))
  ∧ (∀ k a, full !! k = Some (ColArray a) → length a = length (index df))
  ∧ (∀ k, k ∈ ["sel"; "psa_W"; "K_x"; "K_y"; "K_nx"; "K_ny"; "K_n"]%string
            ++ uptake_keys ++ workcap_keys →
       ∃ a, full !! k = Some (ColArray a)).
Proof.
  intros Hdf Hr H. unfold gen_data in H. rewrite Hdf in H. inv_ok H.
  match goal with
  | HL : uptake_columns _ _ = Ok _, HW : workcap_columns _ _ _ = Ok _,
    Hi : index <$> _ = Ok _ |- _ =>
    apply (uptake_columns_length _ _ _ Hr) in HL;
    apply (workcap_columns_length _ _ _ _ Hr) in HW;
    rewrite !Forall_cons in HL, HW;
    destruct HL as (? & ? & ? & ? & ? & _), HW as (? & ? & ? & ? & ? & _);
    unfold fmap, result_fmap in Hi; simpl in Hi; injection Hi as <-
  end.
  lengths Hr. injection H as <-.
  split; [reflexivity|]. split.
  - intros k c Hk. simpl in Hk.
    repeat (rewrite lookup_insert_Some in Hk;
            destruct Hk as [[<- Hk]|[_ Hk]]; [simplify_eq; congruence|]).
    by rewrite lookup_empty in Hk.
  - intros k Hk. unfold uptake_keys, workcap_keys in Hk. simpl in Hk.
    repeat (apply elem_of_cons in Hk as [->|Hk]; [eexists; reflexivity|]).
    by apply elem_of_nil in Hk.
Qed.

Lemma gen_data_rectangular_witness :
  data Demo.model0 !! "labels"%string = Some (ColStr ["MOF-A"; "MOF-B"]%string)
  ∧ ∀ k a, data Demo.model0 !! k = Some (ColArray a) → length a = 2%nat.
Proof.
  destruct (gen_data_rectangular (set_dfs (Some Demo.frame0) Demo.blank)
              Demo.frame0 (data Demo.model0)) as (Hl & Ha & _).
  - reflexivity.
  - vm_compute. reflexivity.
  - vm_compute. reflexivity.
  - split; [exact Hl|exact Ha].
Defined.

(** X3: the working capacity columns of the patch agree with a full
    recompute.  On a rectangular stats table, for a snapshot whose
    selectivity, screening metric and working capacity columns are arrays
    with one entry per material, whenever the full recompute for the range
    (lo, hi) succeeds, [patch_data_w] succeeds and its patch applies; the
    patched snapshot holds the columns [W_x], [W_y], [W_nx], [W_ny] and
    [W_n] of the full recompute, its [psa_W] is [(W_y / W_x) * sel] with
    the selectivity of the snapshot, and every other column is
    untouched. *)
Theorem patch_data_w_workcap_consistent (m : DataModel) (df : DataFrame)
    (lo hi : float) (full : gmap string column) (sel : list float) :
  _dfs m = Some df → rectangular df = true →
  data m !! "sel"%string = Some (ColArray sel) →
  length sel = length (index df) →
  (∀ k, k ∈ "psa_W"%string :: workcap_keys →
     ∃ a, data m !! k = Some (ColArray a) ∧ length a = length (index df)) →
  gen_data (set_par (set_p1_p2 lo hi (par m)) m) = Ok full →
  ∃ ps d W,
    patch_data_w (set_par (set_p1_p2 lo hi (par m)) m) = Ok ps
    ∧ patch (data m) ps = Ok d
    ∧ workcap_columns (Some df) lo hi = Ok W
    ∧ (∀ k, k ∈ workcap_keys → d !! k = full !! k)
    ∧ d !! "psa_W"%string
      = Some (ColArray (zip_with PrimFloat.mul
                          (zip_with PrimFloat.div (W_y W) (W_x W)) sel))
    ∧ (∀ k, k ∉ "psa_W"%string :: workcap_keys → d !! k = data m !! k).
Proof.
  intros Hdf Hr Hsel Hlsel Hshape Hfull.
  apply gen_data_workcap in Hfull as (W & HW & Hx & Hy & Hnx & Hny & Hn).
  simpl in HW. rewrite Hdf in HW.
  pose proof (workcap_columns_length _ _ _ _ Hr HW) as Hlen.
  rewrite !Forall_cons in Hlen.
  destruct Hlen as (Lx & Ly & Lnx & Lny & Ln & _).
  set (q := zip_with PrimFloat.div (W_y W) (W_x W)).
  set (psa := zip_with PrimFloat.mul q sel).
  assert (Hq : length q = length (index df)).
  { unfold q. rewrite length_zip_with. lia. }
  assert (Hpsa : length psa = length (index df)).
  { unfold psa. rewrite length_zip_with. lia. }
  set (ps := [("psa_W"%string, psa); ("W_x"%string, W_x W);
              ("W_y"%string, W_y W); ("W_nx"%string, W_nx W);
              ("W_ny"%string, W_ny W); ("W_n"%string, W_n W)]).
  assert (Hpatch : patch_data_w (set_par (set_p1_p2 lo hi (par m)) m) = Ok ps).
  { unfold patch_data_w. simpl. rewrite Hdf, HW. simpl.
    rewrite (binop_same_length PrimFloat.div) by congruence. simpl.
    unfold array_of. rewrite Hsel. simpl.
    rewrite (binop_same_length PrimFloat.mul) by (fold q; congruence).
    reflexivity. }
  assert (Hps : ∀ k v, (k, v) ∈ ps →
            k ∈ "psa_W"%string :: workcap_keys
            ∧ length v = length (index df)).
  { intros k v Hin. unfold ps, workcap_keys in *.
    repeat (apply elem_of_cons in Hin as [[= -> ->]|Hin];
            [split; [set_solver|done]|]).
    by apply elem_of_nil in Hin. }
  destruct (patch_distinct ps (data m)) as (d & Hd & Hall).
  { by apply (bool_decide_unpack _); vm_compute. }
  { intros k v (Hk & Hv)%Hps. destruct (Hshape k Hk) as (a & Ha & Hla).
    exists (ColArray a). split; [done|].
    rewrite slice_assign_array; [done|congruence]. }
  assert (Hval : ∀ k v, (k, v) ∈ ps → d !! k = Some (ColArray v)).
  { intros k v Hin. destruct (Hps k v Hin) as (Hk & Hv).
    destruct (Hall k v Hin) as (c & Hc & Hr').
    destruct (Hshape k Hk) as (a & Ha & Hla). simplify_eq.
    rewrite slice_assign_array in Hr' by congruence. simpl in Hr'. congruence. }
  exists ps, d, W. split; [done|]. split; [done|]. split; [done|].
  split; [|split].
  - intros k Hk. unfold workcap_keys in Hk.
    repeat (apply elem_of_cons in Hk as [->|Hk];
      [etrans; [apply Hval; unfold ps;
                repeat first [apply list_elem_of_here
                             |apply list_elem_of_further]|done]|]).
    by apply elem_of_nil in Hk.
  - apply Hval. apply list_elem_of_here.
  - intros k Hk. by apply (patch_frame ps).
Qed.

Lemma patch_data_w_workcap_consistent_witness :
  let m := set_par (set_p1_p2 1 5 (par Demo.model0)) Demo.model0 in
  ∃ ps d, patch_data_w m = Ok ps
          ∧ patch (data Demo.model0) ps = Ok d
          ∧ (∀ k, k ∈ workcap_keys → d !! k = get_ok ∅ (gen_data m) !! k).
Proof.
  intros m.
  destruct (patch_data_w_workcap_consistent Demo.model0 Demo.frame0 1 5
              (get_ok ∅ (gen_data m)) [8 / 3; 3 / 1])
    as (ps & d & W & Hps & Hd & _ & Hk & _).
  - vm_compute. reflexivity.
  - vm_compute. reflexivity.
  - vm_compute. reflexivity.
  - reflexivity.
  - intros k Hk. unfold workcap_keys in Hk.
    repeat (apply elem_of_cons in Hk as [->|Hk];
            [eexists; split; vm_compute; reflexivity|]).
    by apply elem_of_nil in Hk.
  - vm_compute. reflexivity.
  - exists ps, d. split; [exact Hps|]. split; [exact Hd|exact Hk].
Defined.


(** ** Shape of the overlay and the working capacity patch of the overlay *)

Lemma patch_error_wc_family (m : DataModel) (indices : option (list nat))
    (ps : patches) :
  patch_error_wc m indices = Ok ps → ∃ rows, ps = family_patches "W" rows.
Proof.
  destruct indices as [indices|]; simpl.
  - intros H. apply bind_Ok in H as (rows & _ & [= <-]). by exists rows.
  - intros [= <-]. by exists [].
Qed.

(** X4: the working capacity patch of the overlay touches the working
    capacity family only.  Whatever overlay [gen_error] produced, a patch
    made by [patch_error_wc], for any model and any selection, applies to
    it; every key outside the six working capacity keys, among them the
    labels and the twelve uptake and Henry keys, is exactly as before, and
    the six working capacity keys hold the lists of the patch. *)
Theorem patch_error_wc_frame (m m' : DataModel)
    (indices indices' : option (list nat))
    (e : gmap string column) (ps : patches) :
  gen_error m indices = Ok e →
  patch_error_wc m' indices' = Ok ps →
  ∃ e', patch e ps = Ok e'
      ∧ (∀ k, k ∉ family_keys "W" → e' !! k = e !! k)
      ∧ (∀ k, k ∈ family_keys "L" ++ family_keys "K" → e' !! k = e !! k)
      ∧ e' !! "labels"%string = e !! "labels"%string
      ∧ (∀ k v, (k, v) ∈ ps → e' !! k = Some (ColList v)).
Proof.
  intros (rows & ->)%gen_error_dict (fams & ->)%patch_error_wc_family.
  assert (Hkeys : ∀ k v, (k, v) ∈ family_patches "W" fams →
            k ∈ family_keys "K" ++ family_keys "L" ++ family_keys "W").
  { intros k v Hin. apply elem_of_app. right. apply elem_of_app. right.
    rewrite <- (family_patches_keys "W" fams).
    apply list_elem_of_fmap. by exists (k, v). }
  destruct (patch_distinct (family_patches "W" fams) (error_dict rows))
    as (e' & He' & Hall).
  { rewrite family_patches_keys. by apply (bool_decide_unpack _); vm_compute. }
  { intros k v Hin.
    destruct (error_dict_family rows k (Hkeys k v Hin)) as (l & Hl).
    exists (ColList l). by split. }
  assert (Hframe : ∀ k, k ∉ family_keys "W" → e' !! k = error_dict rows !! k).
  { intros k Hk. apply (patch_frame _ _ _ _ He').
    by rewrite family_patches_keys. }
  exists e'. split; [exact He'|]. split; [exact Hframe|]. split; [|split].
  - intros k Hk. apply Hframe. intros HW. vm_compute in Hk, HW.
    repeat (apply elem_of_cons in Hk as [->|Hk];
            [by repeat (apply elem_of_cons in HW as [[=]|HW]);
                apply elem_of_nil in HW|]).
    by apply elem_of_nil in Hk.
  - apply Hframe. intros HW. vm_compute in HW.
    repeat (apply elem_of_cons in HW as [[=]|HW]). by apply elem_of_nil in HW.
  - intros k v Hin. destruct (Hall k v Hin) as (c & Hc & Hs).
    destruct (error_dict_family rows k (Hkeys k v Hin)) as (l & Hl).
    rewrite Hl in Hc. injection Hc as <-. simpl in Hs. by injection Hs as <-.
Qed.

Lemma patch_error_wc_frame_witness :
  let e := get_ok ∅ (gen_error Demo.model0 (Some [0; 1]%nat)) in
  let m' := set_par (set_p1_p2 1 5 (par Demo.model0)) Demo.model0 in
  let ps := get_ok [] (patch_error_wc m' (Some [0; 1]%nat)) in
  ∃ e', patch e ps = Ok e'
      ∧ (∀ k, k ∈ family_keys "L" ++ family_keys "K" → e' !! k = e !! k)
      ∧ e' !! "W_x"%string = Some (ColList [5; 5; 0; 0]).
Proof.
  intros e m' ps.
  destruct (patch_error_wc_frame Demo.model0 m' (Some [0; 1]%nat)
              (Some [0; 1]%nat) e ps) as (e' & He' & _ & HLK & _ & Hps).
  - vm_compute. reflexivity.
  - vm_compute. reflexivity.
  - exists e'. split; [exact He'|]. split; [exact HLK|].
    apply Hps. vm_compute. apply list_elem_of_here.
Defined.

Lemma mapM_Ok_Forall2 {A B} (f : A → result B) (l : list A) (k : list B) :
  mapM f l = Ok k ↔ Forall2 (fun x y => f x = Ok y) l k.
Proof.
  revert k. induction l as [|x l IH]; intros k; simpl.
  - split; [intros [= <-]; constructor|by inversion 1].
  - split.
    + intros H. apply bind_Ok in H as (y & Hy & H).
      apply bind_Ok in H as (k' & Hk' & [= <-]).
      constructor; [done|]. by apply IH.
    + inversion 1 as [|? y ? k' Hy Hk']; subst.
      rewrite Hy. simpl. apply IH in Hk'. by rewrite Hk'.
Qed.

Lemma length_join_pairs {A B} (part : A → list B) (rows : list A) :
  (∀ r, length (part r) = 2%nat) →
  length (mjoin (map part rows)) = (2 * length rows)%nat.
Proof.
  intros H. induction rows as [|r rows IH]; simpl; [done|].
  rewrite length_app, H, IH. lia.
Qed.

(** X5: the overlay is rectangular and follows the selection.  When
    [gen_error] succeeds on a selection, every one of its nineteen columns
    has two entries per selected row, and the labels are those of the
    selected rows of the snapshot, each twice, in the order of the
    selection. *)
Theorem gen_error_shape (m : DataModel) (indices : list nat)
    (e : gmap string column) :
  gen_error m (Some indices) = Ok e →
  (∀ k l, e !! k = Some (ColList l) → length l = (2 * length indices)%nat)
  ∧ (∀ k, k ∈ family_keys "K" ++ family_keys "L" ++ family_keys "W" →
       ∃ l, e !! k = Some (ColList l))
  ∧ ∃ mats, Forall2 (fun i mat => label_at (data m) i = Ok mat) indices mats
      ∧ e !! "labels"%string
        = Some (ColStr (mjoin (map (fun mat => [mat; mat]) mats))).
Proof.
  simpl. intros H. apply bind_Ok in H as (rows & Hrows & [= <-]).
  apply mapM_Ok_Forall2 in Hrows.
  assert (Hlen : length rows = length indices)
    by (symmetry; by eapply Forall2_length).
  split; [|split].
  - intros k l Hk. unfold error_dict in Hk. simpl in Hk.
    repeat (rewrite lookup_insert_Some in Hk;
            destruct Hk as [[<- Hk]|[_ Hk]];
            [try discriminate; injection Hk as <-; rewrite <- Hlen;
             by apply length_join_pairs|]).
    by rewrite lookup_empty in Hk.
  - apply error_dict_family.
  - exists (map row_mat rows). split.
    + clear Hlen. induction Hrows as [|i r idx rows Hr Hrows IH]; simpl;
        constructor; [|done].
      unfold gen_error_row in Hr. apply bind_Ok in Hr as (mat & Hmat & Hr).
      inv_ok Hr. by injection Hr as <-.
    + rewrite map_map. reflexivity.
Qed.

Lemma gen_error_shape_witness :
  let e := get_ok ∅ (gen_error Demo.model0 (Some [1; 0]%nat)) in
  (∀ k l, e !! k = Some (ColList l) → length l = 4%nat)
  ∧ e !! "labels"%string
    = Some (ColStr ["MOF-B"; "MOF-B"; "MOF-A"; "MOF-A"]%string).
Proof.
  intros e.
  destruct (gen_error_shape Demo.model0 [1; 0]%nat e) as (Hl & _ & _).
  - vm_compute. reflexivity.
  - split; [exact Hl|]. vm_compute. reflexivity.
Defined.

(** ** Selections *)

(** X6: what a change of the selection does.  Emptying the selection never
    raises.  When the overlay of the new selection can be generated, the
    callback stores it, empties both curve sets and resets their ranges to
    1, leaves the snapshot, the stats table, the parameters and the
    selection as they are, and starts two loaders, one per gas, exactly
    when a single row is selected; when the overlay cannot be generated
    the callback raises, changes nothing and starts no loader. *)
Theorem selection_callback_dispatch (load : string → option Iso)
    (m : DataModel) (new : list nat) :
  let r := selection_callback load m new in
  (new = [] → r.2 = Ok () ∧ errors r.1.1 = error_dict [])
  ∧ (∀ e, r.2 = Raise e → r.1.1 = m ∧ r.1.2 = []
          ∧ gen_error m (Some new) = Raise e)
  ∧ (r.2 = Ok () →
       gen_error m (match new with [] => None | _ => Some new end)
       = Ok (errors r.1.1)
       ∧ g1_iso_sel r.1.1 = reset_plot ∧ g2_iso_sel r.1.1 = reset_plot
       ∧ data r.1.1 = data m ∧ _dfs r.1.1 = _dfs m ∧ par r.1.1 = par m
       ∧ selected r.1.1 = selected m
       ∧ length r.1.2 = (if Nat.eqb (length new) 1 then 2 else 0)%nat
       ∧ (∀ i, new = [i] →
            r.1.2 = [(populate_isos load r.1.1 i "g1").1;
                     (populate_isos load r.1.1 i "g2").1])).
Proof.
  unfold selection_callback. destruct new as [|i [|j new]].
  - simpl. split; [done|]. split; [done|]. intros _. by repeat split.
  - destruct (gen_error m (Some [i])) as [e|e]; simpl.
    + split; [done|]. split; [done|]. intros _.
      repeat split; try done. by intros ? [= <-].
    + split; [done|]. split; [|done]. by intros ? [= <-].
  - destruct (gen_error m (Some (i :: j :: new))) as [e|e]; simpl.
    + split; [done|]. split; [done|]. intros _. repeat split; try done.
    + split; [done|]. split; [|done]. by intros ? [= <-].
Qed.

(** X7: a selected index beyond the rows of the snapshot.  When the rows
    selected before it can be processed, an index that is not a position
    of the label column makes [gen_error] raise [IndexError], and
    [selection_callback] then raises it too, leaving the overlay and the
    curve sets as they were and starting no loader. *)
Theorem gen_error_index_out_of_range (load : string → option Iso)
    (m : DataModel) (labels : list string) (pre rest : list nat) (i : nat) :
  data m !! "labels"%string = Some (ColStr labels) →
  (length labels ≤ i)%nat →
  Forall (fun j => is_ok (gen_error_row m j) = true) pre →
  gen_error m (Some (pre ++ i :: rest)) = Raise IndexError
  ∧ selection_callback load m (pre ++ i :: rest) = (m, [], Raise IndexError).
Proof.
  intros Hlab Hi Hpre.
  assert (Hrow : gen_error_row m i = Raise IndexError).
  { unfold gen_error_row, label_at. rewrite Hlab. simpl.
    by rewrite (lookup_ge_None_2 labels i Hi). }
  assert (Hmap : mapM (gen_error_row m) (pre ++ i :: rest) = Raise IndexError).
  { induction Hpre as [|j pre Hj Hpre IH]; simpl.
    - by rewrite Hrow.
    - destruct (gen_error_row m j); [|done]. simpl. by rewrite IH. }
  assert (Hgen : gen_error m (Some (pre ++ i :: rest)) = Raise IndexError).
  { simpl. by rewrite Hmap. }
  split; [exact Hgen|]. unfold selection_callback. rewrite Hgen.
  by destruct pre.
Qed.

Lemma gen_error_index_out_of_range_witness :
  gen_error Demo.model0 (Some [0; 2; 1]%nat) = Raise IndexError
  ∧ selection_callback Demo.load_isotherm Demo.model0 [0; 2; 1]%nat
    = (Demo.model0, [], Raise IndexError).
Proof.
  apply (gen_error_index_out_of_range Demo.load_isotherm Demo.model0
           ["MOF-A"; "MOF-B"]%string [0%nat] [1%nat] 2).
  - vm_compute. reflexivity.
  - simpl. lia.
  - repeat constructor.
Defined.

(** ** The uptake callback *)

Lemma patch_data_l_keys (m : DataModel) (ps : patches) :
  patch_data_l m = Ok ps → ps.*1 = uptake_keys.
Proof.
  unfold patch_data_l. intros H. apply bind_Ok in H as (L & _ & [= <-]).
  reflexivity.
Qed.

Lemma write_through_frame (v : option float) (d : gmap string column)
    (df : DataFrame) (key : string) :
  index (write_through v d df key) = index df
  ∧ seq_columns (write_through v d df key) = seq_columns df
  ∧ ref_columns (write_through v d df key) = ref_columns df
  ∧ ∀ col, (∀ lp0, v = Some lp0 → view_of lp0 key ≠ Some col) →
           columns (write_through v d df key) !! col = columns df !! col.
Proof.
  unfold write_through. destruct v as [lp0|]; simpl; [|done].
  destruct (view_of lp0 key) as [c|] eqn:Hv; [|done].
  destruct (d !! key) as [[l|a|l]|]; try done.
  case_bool_decide; [|done]. simpl. repeat split.
  intros col Hcol. apply lookup_insert_ne. intros ->. by apply (Hcol lp0).
Qed.

Lemma foldl_write_through_frame (v : option float) (d : gmap string column)
    (keys : list string) (df : DataFrame) :
  index (foldl (write_through v d) df keys) = index df
  ∧ seq_columns (foldl (write_through v d) df keys) = seq_columns df
  ∧ ref_columns (foldl (write_through v d) df keys) = ref_columns df
  ∧ ∀ col, (∀ lp0 key, v = Some lp0 → key ∈ keys →
                       view_of lp0 key ≠ Some col) →
           columns (foldl (write_through v d) df keys) !! col
           = columns df !! col.
Proof.
  revert df. induction keys as [|key keys IH]; intros df; simpl; [done|].
  destruct (IH (write_through v d df key)) as (Hi & Hs & Hr & Hc).
  destruct (write_through_frame v d df key) as (Hi' & Hs' & Hr' & Hc').
  rewrite Hi, Hs, Hr, Hi', Hs', Hr'. repeat split.
  intros col Hcol. rewrite Hc, Hc'; [done| |].
  - intros lp0 Hv. apply Hcol; [done|left].
  - intros lp0 key' Hv Hk. apply Hcol; [done|by right].
Qed.

(** Assigning arrays that are not views leaves the model as it is. *)
Lemma written_fresh (keys : list string) (m : DataModel) :
  (∀ lp0 key, key ∈ keys → view_of lp0 key = None) → written keys m = m.
Proof.
  intros Hkeys. unfold written, mutate_dfs.
  assert (∀ df, foldl (write_through (view m) (data m)) df keys = df) as Hf.
  { induction keys as [|key keys IH]; intros df; simpl; [done|].
    assert (write_through (view m) (data m) df key = df) as ->.
    { unfold write_through. destruct (view m) as [lp0|]; simpl; [|done].
      rewrite (Hkeys lp0 key); [done|left]. }
    apply IH. intros lp0 key' Hk. apply Hkeys. by right. }
  destruct m as [? [df|] ? ? ? ? ? ? ?]; simpl; [|done]. by rewrite Hf.
Qed.

(** X8: what the uptake callback leaves alone, and what it overwrites.
    Whether it succeeds or raises, [uptake_callback] stores the new
    pressure and leaves the dataset, the other parameters, the selection
    and both curve sets as they are; in the snapshot it can only change
    the five uptake columns, in the overlay only the six uptake keys, and
    with an empty selection it does not touch the overlay at all.  The
    stats table keeps its index, its loading sequences and its isotherm
    references; of its numeric columns only the size and median columns
    of the two gases at the pressure the snapshot was taken at can
    change, since the uptake arrays of the snapshot are views of them; a
    snapshot that views no column of the table leaves the table as it
    is. *)
Theorem uptake_callback_frame (m : DataModel) (new : float) :
  let r := uptake_callback m new in
  par r.1 = set_lp new (par m)
  ∧ _df r.1 = _df m ∧ selected r.1 = selected m ∧ view r.1 = view m
  ∧ g1_iso_sel r.1 = g1_iso_sel m ∧ g2_iso_sel r.1 = g2_iso_sel m
  ∧ (∀ k, k ∉ uptake_keys → data r.1 !! k = data m !! k)
  ∧ (∀ k, k ∉ family_keys "L" → errors r.1 !! k = errors m !! k)
  ∧ (selected m = [] → errors r.1 = errors m)
  ∧ (_dfs m = None → _dfs r.1 = None)
  ∧ (∀ df, _dfs m = Some df →
       ∃ df', _dfs r.1 = Some df' ∧ index df' = index df
         ∧ seq_columns df' = seq_columns df
         ∧ ref_columns df' = ref_columns df
         ∧ (view m = None → df' = df)
         ∧ (∀ lp0 col, view m = Some lp0 →
              col ∉ [(key_x lp0, "size"); (key_x lp0, "med");
                     (key_y lp0, "size"); (key_y lp0, "med")]%string →
              columns df' !! col = columns df !! col)).
Proof.
  unfold uptake_callback.
  set (m1 := set_par (set_lp new (par m)) m).
  assert (Hsame : ∀ df, _dfs m = Some df →
            ∃ df', _dfs m = Some df' ∧ index df' = index df
              ∧ seq_columns df' = seq_columns df
              ∧ ref_columns df' = ref_columns df
              ∧ (view m = None → df' = df)
              ∧ (∀ lp0 col, view m = Some lp0 →
                   col ∉ [(key_x lp0, "size"); (key_x lp0, "med");
                          (key_y lp0, "size"); (key_y lp0, "med")]%string →
                   columns df' !! col = columns df !! col)).
  { intros df Hdf. exists df. by repeat split. }
  destruct (patch_data_l m1) as [ps|e] eqn:Hps; simpl; [|by repeat split].
  destruct (patch (data m) ps) as [d|e] eqn:Hd; simpl; [|by repeat split].
  assert (Hdata : ∀ k, k ∉ uptake_keys → d !! k = data m !! k).
  { intros k Hk. apply (patch_frame ps); [done|].
    by rewrite (patch_data_l_keys _ _ Hps). }
  set (m2 := written uptake_keys (set_data d m1)).
  assert (Hm2 : par m2 = set_lp new (par m) ∧ _df m2 = _df m
            ∧ selected m2 = selected m ∧ view m2 = view m
            ∧ g1_iso_sel m2 = g1_iso_sel m ∧ g2_iso_sel m2 = g2_iso_sel m
            ∧ data m2 = d ∧ errors m2 = errors m) by done.
  destruct Hm2 as (Hp2 & Hdf2 & Hsel2 & Hv2 & Hg1 & Hg2 & Hd2 & He2).
  assert (Hnone : _dfs m = None → _dfs m2 = None).
  { intros Hn. unfold m2, written, mutate_dfs. simpl. by rewrite Hn. }
  assert (Htable : ∀ df, _dfs m = Some df →
            ∃ df', _dfs m2 = Some df' ∧ index df' = index df
              ∧ seq_columns df' = seq_columns df
              ∧ ref_columns df' = ref_columns df
              ∧ (view m = None → df' = df)
              ∧ (∀ lp0 col, view m = Some lp0 →
                   col ∉ [(key_x lp0, "size"); (key_x lp0, "med");
                          (key_y lp0, "size"); (key_y lp0, "med")]%string →
                   columns df' !! col = columns df !! col)).
  { intros df Hdf. unfold m2, written, mutate_dfs. simpl. rewrite Hdf. simpl.
    eexists. split; [reflexivity|].
    destruct (foldl_write_through_frame (view m) d uptake_keys df)
      as (Hi & Hs & Hr & Hc).
    split; [done|]. split; [done|]. split; [done|]. split.
    - intros Hv. rewrite Hv. reflexivity.
    - intros lp0 col Hv Hcol. apply Hc. intros lp0' key Hv' Hkey.
      rewrite Hv in Hv'. injection Hv' as <-.
      unfold uptake_keys in Hkey. intros Hview.
      repeat (apply elem_of_cons in Hkey as [->|Hkey];
              [simpl in Hview; try discriminate;
               injection Hview as <-; apply Hcol;
               repeat first [apply list_elem_of_here
                            |apply list_elem_of_further]|]).
      by apply elem_of_nil in Hkey. }
  rewrite ?Hsel2.
  destruct (selected m) as [|i sel] eqn:Hsel; simpl; [by repeat split|].
  destruct (mapM (patch_error_l_row m2) (i :: sel))
    as [rows|e] eqn:Hrows; simpl in *; rewrite Hrows; simpl;
    [|by repeat split].
  destruct (patch (errors m) (family_patches "L" rows)) as [e'|e] eqn:He;
    simpl; [|by repeat split].
  repeat split; try done.
  intros k Hk. apply (patch_frame (family_patches "L" rows)); [done|].
  by rewrite family_patches_keys.
Qed.

(** X9: an uptake pressure without a column in the stats table.  When the
    stats table has no size column for the new pressure, [uptake_callback]
    raises [KeyError]; the new pressure is stored all the same, and the
    snapshot and the overlay stay as they were. *)
Theorem uptake_callback_missing_pressure (m : DataModel) (df : DataFrame)
    (new : float) :
  _dfs m = Some df →
  columns df !! (key_x new, "size"%string) = None →
  uptake_callback m new = (set_par (set_lp new (par m)) m, Raise KeyError)
  ∧ lp (par (uptake_callback m new).1) = new
  ∧ data (uptake_callback m new).1 = data m
  ∧ errors (uptake_callback m new).1 = errors m.
Proof.
  intros Hdf Hcol.
  assert (uptake_callback m new
          = (set_par (set_lp new (par m)) m, Raise KeyError)) as ->.
  { unfold uptake_callback, patch_data_l, uptake_columns, values. simpl.
    rewrite Hdf. simpl. by rewrite Hcol. }
  by repeat split.
Qed.

Lemma uptake_callback_missing_pressure_witness :
  uptake_callback Demo.model0 1.5
  = (set_par (set_lp 1.5 (par Demo.model0)) Demo.model0, Raise KeyError)
  ∧ lp (par (uptake_callback Demo.model0 1.5).1) = 1.5
  ∧ data (uptake_callback Demo.model0 1.5).1 = data Demo.model0
  ∧ errors (uptake_callback Demo.model0 1.5).1 = errors Demo.model0.
Proof.
  apply (uptake_callback_missing_pressure Demo.model0 Demo.frame0 1.5).
  - vm_compute. reflexivity.
  - vm_compute. reflexivity.
Defined.

(** ** Curves *)

(** X10: a curve without points.  A callback with a colour whose curve has
    an empty pressure sequence still appends the curve to the source, then
    raises [IndexError] on reading its last pressure; the range ends of
    the plot stay as they were. *)
Theorem iso_update_empty_curve (p : IsoPlot) (iso : Iso) (color : string) :
  color ≠ ""%string → iso_x iso = [] →
  iso_update p iso (Some color)
  = (mkIsoPlot (source p ++ [mkCurve (iso_label iso) [] (iso_y iso)
                                     (iso_doi iso) (iso_temp iso) color])
               (x_range_end p) (y_range_end p),
     Raise IndexError).
Proof.
  intros Hc Hx. unfold iso_update, stream, pick_color, truthy.
  destruct (String.eqb_spec color ""); [done|]. simpl.
  rewrite !Hx. reflexivity.
Qed.

Lemma iso_update_empty_curve_witness :
  iso_update reset_plot (mkIso "empty" [] [] "doi" "303") (Some "k"%string)
  = (mkIsoPlot [mkCurve "empty" [] [] "doi" "303" "k"] 1 1, Raise IndexError).
Proof.
  apply (iso_update_empty_curve reset_plot (mkIso "empty" [] [] "doi" "303")
           "k").
  - discriminate.
  - reflexivity.
Defined.

(** X11: loaders and their callbacks never touch the snapshot.  A step of
    a session that is not a change of the selection, that is a loader
    queueing a callback or the owner thread running one, leaves the
    snapshot, the overlay, the selection, the stats table and the
    parameters as they are. *)
Theorem loader_steps_frame (load : string → option Iso) (s : Session)
    (ev : event) :
  (∀ new, ev ≠ Select new) →
  let m' := model (exec load s ev) in
  data m' = data (model s) ∧ errors m' = errors (model s)
  ∧ selected m' = selected (model s) ∧ _dfs m' = _dfs (model s)
  ∧ par m' = par (model s).
Proof.
  intros Hev. destruct ev as [new|i|]; simpl.
  - by destruct (Hev new).
  - by destruct (threads s !! i) as [[|cb rest]|].
  - destruct (queue s) as [|cb q]; simpl; [done|].
    unfold run_callback. by destruct (cb_target cb).
Qed.

Lemma loader_steps_frame_witness :
  let s := run Demo.load_isotherm (mkSession Demo.model1 [] [])
               [Select [0%nat]; Emit 0] in
  data (model (exec Demo.load_isotherm s Tick)) = data (model s)
  ∧ errors (model (exec Demo.load_isotherm s Tick)) = errors (model s).
Proof.
  intros s.
  destruct (loader_steps_frame Demo.load_isotherm s Tick) as (Hd & He & _).
  - discriminate.
  - by split.
Defined.

(** ** Missing values *)

Lemma dropna_app (l1 l2 : list float) :
  dropna (l1 ++ l2) = dropna l1 ++ dropna l2.
Proof. unfold dropna. apply List.filter_app. Qed.

Lemma stats_dropna (l1 l2 : list float) :
  dropna l1 = dropna l2 → stats l1 = stats l2.
Proof. intros H. unfold stats. by rewrite H. Qed.

(** X12: missing values do not count.  Inserting a missing value anywhere
    in a series changes nothing of what [stats] returns: not the count,
    not the median, not the error. *)
Theorem stats_ignores_missing (l1 l2 : list float) (x : float) :
  Np.isnan x = true → stats (l1 ++ x :: l2) = stats (l1 ++ l2).
Proof.
  intros Hx. apply stats_dropna. rewrite !dropna_app. f_equal.
  unfold dropna. simpl. by rewrite Hx.
Qed.

Lemma stats_ignores_missing_witness :
  stats ([1; 2] ++ nan :: [3]) = stats ([1; 2] ++ [3]).
Proof. apply (stats_ignores_missing [1; 2] [3] nan). reflexivity. Defined.

(** ** The working capacity callback *)

Lemma patch_data_w_keys (m : DataModel) (ps : patches) :
  patch_data_w m = Ok ps → ps.*1 = "psa_W"%string :: workcap_keys.
Proof.
  unfold patch_data_w. intros H. inv_ok H. by injection H as <-.
Qed.

(** X14: what the working capacity callback leaves alone.  Whether it
    succeeds or raises, [wc_callback] stores the new range and leaves the
    dataset, the stats table, the uptake pressure, the selection and both
    curve sets as they are; in the snapshot it can only change [psa_W] and
    the five working capacity columns, in the overlay only the six working
    capacity keys, and with an empty selection it does not touch the
    overlay at all. *)
Theorem wc_callback_frame (m : DataModel) (lo hi : float) :
  let r := wc_callback m (lo, hi) in
  par r.1 = set_p1_p2 lo hi (par m)
  ∧ _df r.1 = _df m ∧ _dfs r.1 = _dfs m ∧ selected r.1 = selected m
  ∧ g1_iso_sel r.1 = g1_iso_sel m ∧ g2_iso_sel r.1 = g2_iso_sel m
  ∧ (∀ k, k ∉ "psa_W"%string :: workcap_keys → data r.1 !! k = data m !! k)
  ∧ (∀ k, k ∉ family_keys "W" → errors r.1 !! k = errors m !! k)
  ∧ (selected m = [] → errors r.1 = errors m).
Proof.
  unfold wc_callback.
  set (m1 := set_par (set_p1_p2 (lo, hi).1 (lo, hi).2 (par m)) m).
  destruct (patch_data_w m1) as [ps|e] eqn:Hps; simpl; [|by repeat split].
  destruct (patch (data m) ps) as [d|e] eqn:Hd; simpl; [|by repeat split].
  rewrite written_fresh.
  2:{ intros lp0 key Hkey. unfold workcap_keys in Hkey.
      repeat (apply elem_of_cons in Hkey as [->|Hkey]; [reflexivity|]).
      by apply elem_of_nil in Hkey. }
  simpl.
  assert (Hdata : ∀ k, k ∉ "psa_W"%string :: workcap_keys →
                       d !! k = data m !! k).
  { intros k Hk. apply (patch_frame ps); [done|].
    by rewrite (patch_data_w_keys _ _ Hps). }
  destruct (selected m) as [|i sel] eqn:Hsel; simpl; [by repeat split|].
  destruct (mapM (patch_error_wc_row (set_data d m1)) (i :: sel))
    as [rows|e] eqn:Hrows; simpl in *; rewrite Hrows; simpl;
    [|by repeat split].
  destruct (patch (errors m) (family_patches "W" rows)) as [e'|e] eqn:He;
    simpl; [|by repeat split].
  repeat split; try done.
  intros k Hk. apply (patch_frame (family_patches "W" rows)); [done|].
  by rewrite family_patches_keys.
Qed.

(** ** Changes of the filter criteria *)

Lemma calculate_None (m : DataModel) :
  shared_mats (_df m) (iso_type (par m)) (t_abs (par m)) (t_tol (par m))
              (g1 (par m)) (g2 (par m)) = [] →
  calculate m = (set_dfs None m, Raise TypeError).
Proof.
  intros H. unfold calculate, select_data. unfold shared_mats in H.
  by rewrite H.
Qed.

(** X15: a change of the criteria that leaves no shared material.  When
    the two gases share no material under the criteria of the model, the
    callbacks of the temperature, the gases and the data type raise the
    [TypeError] of [gen_data] after storing [None] as the stats table and
    before resetting anything: the snapshot, the overlay, the selection
    and the curve sets stay those of the previous criteria.  Every later
    move of the uptake or working capacity slider raises [TypeError]
    too. *)
Theorem criteria_change_without_shared_material (load : string → option Iso)
    (m : DataModel) :
  shared_mats (_df m) (iso_type (par m)) (t_abs (par m)) (t_tol (par m))
              (g1 (par m)) (g2 (par m)) = [] →
  new_t_callback load m = (set_dfs None m, Raise TypeError)
  ∧ new_ads_callback load m = (set_dfs None m, Raise TypeError)
  ∧ new_dtype_callback load m = (set_dfs None m, Raise TypeError)
  ∧ (∀ p, (uptake_callback (set_dfs None m) p).2 = Raise TypeError)
  ∧ (∀ lo hi, (wc_callback (set_dfs None m) (lo, hi)).2 = Raise TypeError).
Proof.
  intros H%calculate_None.
  assert (Ht : new_t_callback load m = (set_dfs None m, Raise TypeError)).
  { unfold new_t_callback. by rewrite H. }
  split; [exact Ht|]. split; [exact Ht|]. split; [|split].
  - unfold new_dtype_callback. by rewrite Ht.
  - intros p. reflexivity.
  - intros lo hi. reflexivity.
Qed.

Lemma criteria_change_without_shared_material_witness :
  t_tol_callback Demo.load_isotherm
    (set_par (set_g2 "ethene" (set_g1 "ethane" (par Demo.model0))) Demo.model0)
    5
  = (set_dfs None
       (set_par (set_t_tol 5 (set_g2 "ethene" (set_g1 "ethane"
                                                 (par Demo.model0))))
                Demo.model0),
     Raise TypeError).
Proof.
  destruct (criteria_change_without_shared_material Demo.load_isotherm
              (set_par (set_t_tol 5 (set_g2 "ethene" (set_g1 "ethane"
                                                        (par Demo.model0))))
                       Demo.model0)) as (Ht & _).
  - vm_compute. reflexivity.
  - exact Ht.
Defined.

(** X16: a successful change of the criteria.  When [calculate] succeeds,
    the callback of a criteria change does not raise; it leaves the new
    stats table and snapshot in place, an empty selection and two empty
    curve sets.  If rows were selected, the overlay is emptied and the
    ranges of both plots go back to 1; if none was, the overlay and the
    ranges are not touched. *)
Theorem criteria_change_resets (load : string → option Iso)
    (m m1 : DataModel) :
  calculate m = (m1, Ok ()) →
  let r := new_t_callback load m in
  r.2 = Ok () ∧ selected r.1 = []
  ∧ source (g1_iso_sel r.1) = [] ∧ source (g2_iso_sel r.1) = []
  ∧ data r.1 = data m1 ∧ _dfs r.1 = _dfs m1 ∧ par r.1 = par m
  ∧ (selected m ≠ [] →
       errors r.1 = error_dict []
       ∧ g1_iso_sel r.1 = reset_plot ∧ g2_iso_sel r.1 = reset_plot)
  ∧ (selected m = [] →
       errors r.1 = errors m
       ∧ x_range_end (g1_iso_sel r.1) = x_range_end (g1_iso_sel m)
       ∧ y_range_end (g1_iso_sel r.1) = y_range_end (g1_iso_sel m)
       ∧ x_range_end (g2_iso_sel r.1) = x_range_end (g2_iso_sel m)
       ∧ y_range_end (g2_iso_sel r.1) = y_range_end (g2_iso_sel m)).
Proof.
  intros Hc. unfold new_t_callback. rewrite Hc. simpl.
  assert (Hm1 : selected m1 = selected m ∧ errors m1 = errors m
                ∧ g1_iso_sel m1 = g1_iso_sel m ∧ g2_iso_sel m1 = g2_iso_sel m
                ∧ par m1 = par m).
  { unfold calculate in Hc. destruct (gen_data _); by simplify_eq. }
  destruct Hm1 as (Hs & He & Hg1 & Hg2 & Hp).
  unfold reset_selection. rewrite Hs.
  destruct (selected m) as [|i sel]; simpl.
  - rewrite Hs at 1. repeat split; try done; by rewrite ?Hg1, ?Hg2.
  - repeat split; try done.
Qed.

Lemma criteria_change_resets_witness :
  let m := set_selected [0%nat] Demo.model1 in
  let r := t_abs_callback Demo.load_isotherm m 300 in
  r.2 = Ok () ∧ selected r.1 = []
  ∧ source (g1_iso_sel r.1) = [] ∧ source (g2_iso_sel r.1) = []
  ∧ errors r.1 = error_dict [].
Proof.
  intros m r.
  destruct (criteria_change_resets Demo.load_isotherm
              (set_par (set_t_abs 300 (par m)) m)
              (calculate (set_par (set_t_abs 300 (par m)) m)).1)
    as (H1 & H2 & H3 & H4 & _ & _ & _ & H5 & _).
  - vm_compute. reflexivity.
  - destruct H5 as (H5 & _); [discriminate|].
    split; [exact H1|]. split; [exact H2|]. split; [exact H3|].
    split; [exact H4|exact H5].
Defined.

(** ** [find_nearest] *)

Lemma argmin_from_bound (best i : nat) (least : float) (l : list float) :
  (best < i)%nat → (argmin_from best least i l < i + length l)%nat.
Proof.
  revert best least i. induction l as [|x l IH]; intros best least i Hb; simpl.
  - lia.
  - destruct (Np.isnan least); [lia|].
    destruct (Np.isnan x || PrimFloat.ltb x least).
    + specialize (IH i x (S i)). lia.
    + specialize (IH best least (S i)). lia.
Qed.

(** X17: [find_nearest] returns an element of the array.  On an empty
    array it raises the [ValueError] of [argmin]; on any other array it
    returns one of the elements, and the only element of a singleton. *)
Theorem find_nearest_member (array : list float) (value : float) :
  (array = [] → find_nearest array value = Raise ValueError)
  ∧ (array ≠ [] → ∃ x, find_nearest array value = Ok x ∧ x ∈ array)
  ∧ (∀ x, array = [x] → find_nearest array value = Ok x).
Proof.
  split; [by intros ->|]. split; [|by intros x ->].
  intros Hne. destruct array as [|y array]; [done|].
  unfold find_nearest. simpl.
  set (i := argmin_from 0 _ 1 _).
  assert (Hi : (i < length (y :: array))%nat).
  { unfold i. simpl.
    pose proof (argmin_from_bound 0 1 (PrimFloat.abs (y - value))
                  (map (fun x => PrimFloat.abs (x - value)) array)) as H.
    rewrite length_map in H. lia. }
  destruct (lookup_lt_is_Some_2 (y :: array) i Hi) as [x Hx].
  exists x. split.
  - unfold mbind, result_bind. by rewrite Hx.
  - by eapply list_elem_of_lookup_2.
Qed.

(** ** The uptake patch and the cached stats table *)

(** C3 (the code departs from it): the uptake patch overwrites the cached
    columns it later reads.  On the model of [Demo], whose snapshot was
    taken at 0.5 bar, the uptake pressure is moved to 1.0 bar and back to
    0.5 bar.  Both callbacks succeed.  The first patch shows the uptake
    columns of a recompute at 1.0 bar, but it assigns them in place to
    arrays that are views of the table, so the cached medians of the
    first gas at 0.5 bar, 2 and NaN, now read 3 and 1.  The second patch
    reads these overwritten columns: with the criteria and the pressure
    of the start, the snapshot shows 3 and 1 for [L_x], where the full
    recompute [calculate] shows 2 and NaN. *)
Theorem uptake_patch_overwrites_cached_columns :
  let r1 := uptake_callback Demo.model0 1 in
  let r2 := uptake_callback r1.1 0.5 in
  let full := calculate r2.1 in
  r1.2 = Ok () ∧ r2.2 = Ok () ∧ full.2 = Ok ()
  ∧ par r2.1 = par Demo.model0 ∧ _df r2.1 = _df Demo.model0
  ∧ par full.1 = par Demo.model0
  ∧ (∀ k, k ∈ uptake_keys →
       data r1.1 !! k
       = get_ok ∅ (gen_data (set_par (set_lp 1 (par Demo.model0))
                                     Demo.model0)) !! k)
  ∧ columns Demo.frame0 !! ("0.5_x", "med")%string = Some [2; nan]
  ∧ (columns <$> _dfs r1.1) ≫= (.!! ("0.5_x", "med")%string) = Some [3; 1]
  ∧ data r2.1 !! "L_x"%string = Some (ColArray [3; 1])
  ∧ data full.1 !! "L_x"%string = Some (ColArray [2; nan])
  ∧ data r2.1 !! "L_x"%string ≠ data full.1 !! "L_x"%string.
Proof.
  intros r1 r2 full.
  split; [vm_compute; reflexivity|].
  split; [vm_compute; reflexivity|].
  split; [vm_compute; reflexivity|].
  split; [vm_compute; reflexivity|].
  split; [vm_compute; reflexivity|].
  split; [vm_compute; reflexivity|].
  split.
  { intros k Hk. unfold uptake_keys in Hk.
    repeat (apply elem_of_cons in Hk as [->|Hk]; [vm_compute; reflexivity|]).
    by apply elem_of_nil in Hk. }
  split; [vm_compute; reflexivity|].
  split; [vm_compute; reflexivity|].
  split; [vm_compute; reflexivity|].
  split; [vm_compute; reflexivity|].
  intros Heq.
  assert (get_ok 0 (float_at (data r2.1) "L_x" 0)
          = get_ok 0 (float_at (data full.1) "L_x" 0)) as H.
  { unfold float_at. by rewrite Heq. }
  assert (Hneq : 3 ≠ 2) by float_neq.
  apply Hneq. vm_compute in H. exact H.
Qed.

(** ** The NaN guard in the overlay *)

Lemma mapM_is_ok {A B} (f : A → result B) (l : list A) :
  (∀ x, x ∈ l → is_ok (f x) = true) → ∃ k, mapM f l = Ok k.
Proof.
  induction l as [|x l IH]; intros H; simpl; [by eexists|].
  destruct (f x) as [y|] eqn:Hy.
  - destruct IH as [k Hk]; [intros z Hz; apply H; by right|].
    exists (y :: k). simpl. by rewrite Hk.
  - specialize (H x (list_elem_of_here _ _)). by rewrite Hy in H.
Qed.

(** The two entries a row contributes to a list that is extended by two
    entries per row. *)
Lemma pair_entries {A B} (part : A → list B) (rows : list A) (j : nat)
    (r : A) (a b : B) :
  (∀ r, length (part r) = 2%nat) → rows !! j = Some r → part r = [a; b] →
  mjoin (map part rows) !! (2 * j)%nat = Some a
  ∧ mjoin (map part rows) !! (2 * j + 1)%nat = Some b.
Proof.
  intros Hlen. revert j. induction rows as [|r0 rows IH]; intros j Hj Hr;
    [done|].
  simpl. specialize (Hlen r0) as Hl0.
  destruct (part r0) as [|x [|y [|z l]]] eqn:Hp0; try discriminate.
  destruct j as [|j]; simpl in *.
  - injection Hj as ->. rewrite Hp0 in Hr. by injection Hr as -> ->.
  - replace (j + S (j + 0))%nat with (S (2 * j)) by lia.
    replace (S (2 * j) + 1)%nat with (S (2 * j + 1)) by lia.
    simpl. by apply IH.
Qed.

(** What a generated row contributes to each column of the overlay. *)
Lemma error_dict_entries (rows : list ErrRow) (j : nat) (r : ErrRow) :
  rows !! j = Some r →
  (∃ labs, error_dict rows !! "labels"%string = Some (ColStr labs)
           ∧ labs !! (2 * j)%nat = Some (row_mat r)
           ∧ labs !! (2 * j + 1)%nat = Some (row_mat r))
  ∧ family_entries (error_dict rows) "K" j (v_x (row_K r)) (v_y (row_K r))
                   (e_x (row_K r)) (e_y (row_K r))
  ∧ family_entries (error_dict rows) "L" j (v_x (row_L r)) (v_y (row_L r))
                   (e_x (row_L r)) (e_y (row_L r))
  ∧ family_entries (error_dict rows) "W" j (v_x (row_W r)) (v_y (row_W r))
                   (e_x (row_W r)) (e_y (row_W r)).
Proof.
  intros Hj. split.
  { exists (mjoin (map (fun r => [row_mat r; row_mat r]) rows)).
    split; [reflexivity|]. by apply (pair_entries _ rows j r). }
  unfold family_entries, entries.
  repeat split;
    (eexists; split; [reflexivity|];
     eapply (pair_entries _ rows j r); [done|exact Hj|reflexivity]).
Qed.

(** C6: the NaN guard of the overlay generator.  Take a row of the
    selection whose label and six paired values can be read from the
    snapshot, and let the error lookups of each of its families without a
    NaN succeed, as well as the other rows of the selection.  Then
    [gen_error] does not raise, and in the overlay the row has its label,
    twice; for a family with a NaN in either paired value the six columns
    of the family hold 0 in both entries of the row, whatever the error
    lookups of that family would do; for a family without NaN they hold
    the point and the ends of its error bars, with the error terms read
    from the stats table, the working capacity error being the sum of the
    errors at the two boundary pressures, per adsorbate. *)
Theorem gen_error_nan_guard (m : DataModel) (indices : list nat)
    (j index : nat) (mat : string) (K_x K_y L_x L_y W_x W_y : float) :
  indices !! j = Some index →
  label_at (data m) index = Ok mat →
  float_at (data m) "K_x" index = Ok K_x →
  float_at (data m) "K_y" index = Ok K_y →
  float_at (data m) "L_x" index = Ok L_x →
  float_at (data m) "L_y" index = Ok L_y →
  float_at (data m) "W_x" index = Ok W_x →
  float_at (data m) "W_y" index = Ok W_y →
  (Np.isnan K_x || Np.isnan K_y = false →
   is_ok (henry_errors (_dfs m) mat) = true) →
  (Np.isnan L_x || Np.isnan L_y = false →
   is_ok (uptake_errors (_dfs m) mat (lp (par m))) = true) →
  (Np.isnan W_x || Np.isnan W_y = false →
   is_ok (workcap_errors (_dfs m) mat (p1 (par m)) (p2 (par m))) = true) →
  (∀ i, i ∈ indices → i ≠ index → is_ok (gen_error_row m i) = true) →
  ∃ e, gen_error m (Some indices) = Ok e
    ∧ (∃ labs, e !! "labels"%string = Some (ColStr labs)
               ∧ labs !! (2 * j)%nat = Some mat
               ∧ labs !! (2 * j + 1)%nat = Some mat)
    ∧ (Np.isnan K_x || Np.isnan K_y = true → zero_entries e "K" j)
    ∧ (Np.isnan L_x || Np.isnan L_y = true → zero_entries e "L" j)
    ∧ (Np.isnan W_x || Np.isnan W_y = true → zero_entries e "W" j)
    ∧ (Np.isnan K_x || Np.isnan K_y = false →
       ∃ ex ey, loc (_dfs m) mat "kH_x" "err" = Ok ex
              ∧ loc (_dfs m) mat "kH_y" "err" = Ok ey
              ∧ family_entries e "K" j K_x K_y ex ey)
    ∧ (Np.isnan L_x || Np.isnan L_y = false →
       ∃ ex ey, loc (_dfs m) mat (key_x (lp (par m))) "err" = Ok ex
              ∧ loc (_dfs m) mat (key_y (lp (par m))) "err" = Ok ey
              ∧ family_entries e "L" j L_x L_y ex ey)
    ∧ (Np.isnan W_x || Np.isnan W_y = false →
       ∃ a b c d, loc (_dfs m) mat (key_x (p1 (par m))) "err" = Ok a
                ∧ loc (_dfs m) mat (key_x (p2 (par m))) "err" = Ok b
                ∧ loc (_dfs m) mat (key_y (p1 (par m))) "err" = Ok c
                ∧ loc (_dfs m) mat (key_y (p2 (par m))) "err" = Ok d
                ∧ family_entries e "W" j W_x W_y (a + b) (c + d)).
Proof.
  intros Hj Hmat HKx HKy HLx HLy HWx HWy HK HL HW Hothers.
  destruct (gen_error_row_nan_guard m index mat K_x K_y L_x L_y W_x W_y
              Hmat HKx HKy HLx HLy HWx HWy HK HL HW)
    as (r & Hr & _ & Hrmat & _ & HK0 & HL0 & HW0 & HK1 & HL1 & HW1 & _).
  destruct (mapM_is_ok (gen_error_row m) indices) as [rows Hrows].
  { intros i Hi. destruct (decide (i = index)) as [->|Hne].
    - by rewrite Hr.
    - by apply Hothers. }
  exists (error_dict rows). split; [simpl; by rewrite Hrows|].
  apply mapM_Ok_Forall2 in Hrows.
  destruct (Forall2_lookup_l _ _ _ _ _ Hrows Hj) as (r' & Hj' & Hr').
  assert (r' = r) as -> by congruence.
  destruct (error_dict_entries rows j r Hj') as (Hlab & HeK & HeL & HeW).
  rewrite Hrmat in Hlab. split; [exact Hlab|].
  split; [|split; [|split; [|split; [|split]]]].
  - intros Hg. rewrite (HK0 Hg) in HeK. exact HeK.
  - intros Hg. rewrite (HL0 Hg) in HeL. exact HeL.
  - intros Hg. rewrite (HW0 Hg) in HeW. exact HeW.
  - intros Hg. destruct (HK1 Hg) as (ex & ey & Hex & Hey & HrK).
    exists ex, ey. rewrite HrK in HeK.
    split; [exact Hex|]. split; [exact Hey|exact HeK].
  - intros Hg. destruct (HL1 Hg) as (ex & ey & Hex & Hey & HrL).
    exists ex, ey. rewrite HrL in HeL.
    split; [exact Hex|]. split; [exact Hey|exact HeL].
  - intros Hg. destruct (HW1 Hg) as (a & b & c & d & Ha & Hb & Hc & Hd & HrW).
    exists a, b, c, d. rewrite HrW in HeW.
    split; [exact Ha|]. split; [exact Hb|]. split; [exact Hc|].
    split; [exact Hd|exact HeW].
Qed.

Lemma gen_error_nan_guard_witness :
  ∃ e, gen_error Demo.model0 (Some [0; 1]%nat) = Ok e
     ∧ (∃ labs, e !! "labels"%string = Some (ColStr labs)
                ∧ labs !! 2%nat = Some "MOF-B"%string
                ∧ labs !! 3%nat = Some "MOF-B"%string)
     ∧ zero_entries e "L" 1 ∧ zero_entries e "W" 1
     ∧ ∃ ex ey, family_entries e "K" 1 1 3 ex ey.
Proof.
  destruct (gen_error_nan_guard Demo.model0 [0; 1]%nat 1 1 "MOF-B"
              1 3 nan nan nan nan)
    as (e & He & Hlab & _ & HL & HW & HK & _).
  - reflexivity.
  - vm_compute. reflexivity.
  - vm_compute. reflexivity.
  - vm_compute. reflexivity.
  - vm_compute. reflexivity.
  - vm_compute. reflexivity.
  - vm_compute. reflexivity.
  - vm_compute. reflexivity.
  - intros _. vm_compute. reflexivity.
  - intros _. vm_compute. reflexivity.
  - intros _. vm_compute. reflexivity.
  - intros i Hi Hne.
    apply elem_of_cons in Hi as [->|Hi]; [vm_compute; reflexivity|].
    apply elem_of_cons in Hi as [->|Hi]; [done|].
    by apply elem_of_nil in Hi.
  - exists e. split; [exact He|]. split; [exact Hlab|].
    split; [apply HL; vm_compute; reflexivity|].
    split; [apply HW; vm_compute; reflexivity|].
    destruct HK as (ex & ey & _ & _ & HK); [vm_compute; reflexivity|].
    by exists ex, ey.
Defined.
